(** * PDF Quiz Generator: the upload page ([src/app/(preview)/page.tsx])

    A shallow embedding of the page component [ChatWithFiles] and of its two
    helper components [FileDropZone] and [LoadingProgress].

    React state ([useState]) and the state of the streaming hook
    ([experimental_useObject]) are the fields of one record; every event
    handler is a function from the rendered state to the next state;
    notifications ([toast.error]) are appended to a log kept in the state.
    What the component returns is a value of type [View]. *)

From Stdlib Require Import String Ascii DecimalString.
From Stdlib Require Import Bool Arith ZArith QArith Qround Lia List.
Import ListNotations.

Local Open Scope string_scope.
Local Open Scope list_scope.

(** ** The fragment of JavaScript the page relies on *)

Module JS.

(** [ToBoolean] on a string: only the empty string is falsy. *)
Definition truthy_string (s : string) : bool :=
  negb (String.eqb s EmptyString).

(** [ToBoolean] on a property that may be absent: [undefined] is falsy,
    a present value has the truthiness of its type. *)
Definition truthy_opt {A : Type} (truthy : A -> bool) (v : option A) : bool :=
  match v with
  | Some a => truthy a
  | None => false
  end.

(** Objects and arrays are always truthy, also the empty array. *)
Definition truthy_object {A : Type} (_ : A) : bool := true.

(** [v ?? d]: the default is taken only for [undefined]/[null]. *)
Definition nullish {A : Type} (v : option A) (d : A) : A :=
  match v with
  | Some a => a
  | None => d
  end.

(** [`${n}`] for a non-negative integer [n]. *)
Definition string_of_nat (n : nat) : string :=
  NilEmpty.string_of_uint (Nat.to_uint n).

(** [`${z}`] for an integer [z]. *)
Definition string_of_Z (z : Z) : string :=
  NilZero.string_of_int (Z.to_int z).

(** [Math.round]: the nearest integer, halves rounded towards +infinity. *)
Definition Math_round (x : Q) : Z :=
  Qfloor (x + (1 # 2)).

End JS.

(** ** Data *)

(** A browser [File], as far as the page reads it. *)
Module File.
Record t : Type := mk {
  name : string;
  type : string;
  size : Z
}.
End File.

(** The payload built for each staged file in [handleSubmitWithFiles]. *)
Module EncodedFile.
Record t : Type := mk {
  name : string;
  type : string;
  data : string
}.
End EncodedFile.

(** [answer: "A" | "B" | "C" | "D"] *)
Inductive Answer : Type := A | B | C | D.

(** One element of the streamed array: while the stream is running any field
    may still be absent. *)
Record QuestionDraft : Type := mkDraft {
  question : option string;
  options : option (list string);
  answer : option Answer
}.

(** A slot of the streamed array; [None] is a slot that is [undefined]. *)
Definition Slot : Type := option QuestionDraft.

(** The texts of the three notifications of the page. *)
Definition SAFARI_MESSAGE : string :=
  "Safari does not support drag & drop. Please use the file picker.".
Definition INVALID_FILE_MESSAGE : string :=
  "Only PDF files under 5MB are allowed.".
Definition GENERATION_FAILED_MESSAGE : string :=
  "Failed to generate quiz. Please try again.".

(** The state of [ChatWithFiles]: its four [useState] cells, the two values
    the streaming hook exposes, and the log of notifications (newest first). *)
Record State : Type := mkState {
  files : list File.t;
  questions : list Slot;
  isDragging : bool;
  title : option string;
  partialQuestions : option (list Slot);
  isLoading : bool;
  toasts : list string
}.

(** The first render: [useState([])], [useState([])], [useState(false)],
    [useState()], [initialValue: undefined], nothing loading. *)
Definition initialState : State :=
  {| files := [];
     questions := [];
     isDragging := false;
     title := None;
     partialQuestions := None;
     isLoading := false;
     toasts := [] |}.

(** State setters. *)
Definition setFiles (fs : list File.t) (st : State) : State :=
  {| files := fs;
     questions := questions st;
     isDragging := isDragging st;
     title := title st;
     partialQuestions := partialQuestions st;
     isLoading := isLoading st;
     toasts := toasts st |}.

Definition setQuestions (qs : list Slot) (st : State) : State :=
  {| files := files st;
     questions := qs;
     isDragging := isDragging st;
     title := title st;
     partialQuestions := partialQuestions st;
     isLoading := isLoading st;
     toasts := toasts st |}.

Definition setIsDragging (b : bool) (st : State) : State :=
  {| files := files st;
     questions := questions st;
     isDragging := b;
     title := title st;
     partialQuestions := partialQuestions st;
     isLoading := isLoading st;
     toasts := toasts st |}.

Definition setTitle (t : option string) (st : State) : State :=
  {| files := files st;
     questions := questions st;
     isDragging := isDragging st;
     title := t;
     partialQuestions := partialQuestions st;
     isLoading := isLoading st;
     toasts := toasts st |}.

(** [toast.error(msg)] *)
Definition toast_error (msg : string) (st : State) : State :=
  {| files := files st;
     questions := questions st;
     isDragging := isDragging st;
     title := title st;
     partialQuestions := partialQuestions st;
     isLoading := isLoading st;
     toasts := msg :: toasts st |}.

(** What the hook does to its own two values. *)
Definition setObject (o : option (list Slot)) (st : State) : State :=
  {| files := files st;
     questions := questions st;
     isDragging := isDragging st;
     title := title st;
     partialQuestions := o;
     isLoading := isLoading st;
     toasts := toasts st |}.

Definition setIsLoading (b : bool) (st : State) : State :=
  {| files := files st;
     questions := questions st;
     isDragging := isDragging st;
     title := title st;
     partialQuestions := partialQuestions st;
     isLoading := b;
     toasts := toasts st |}.

(** ** FileDropZone *)

Definition PDF_MIME : string := "application/pdf".

(** [5 * 1024 * 1024] *)
Definition MAX_SIZE : Z := 5 * 1024 * 1024.

(** The predicate of the [filter] in [handleFileChange]. *)
Definition isValidFile (file : File.t) : bool :=
  String.eqb (File.type file) PDF_MIME && (File.size file <=? MAX_SIZE)%Z.

(** [handleFileChange], with [isSafari] the result of the user-agent test and
    [selectedFiles] the array made of [e.target.files || []].  The handler
    reads [isDragging] from the render it was created in. *)
Definition handleFileChange (isSafari : bool) (selectedFiles : list File.t)
    (st : State) : State :=
  if isSafari && isDragging st then
    toast_error SAFARI_MESSAGE st
  else
    let validFiles := filter isValidFile selectedFiles in
    let st1 :=
      if negb (length validFiles =? length selectedFiles)%nat
      then toast_error INVALID_FILE_MESSAGE st
      else st in
    setFiles validFiles st1.

(** [onDragOver], [onDragLeave] and [onDrop] of the drop zone.  In [onDrop]
    the call [setIsDragging(false)] only schedules the update:
    [handleFileChange] still sees the rendered [isDragging]. *)
Definition onDragOver (st : State) : State := setIsDragging true st.
Definition onDragLeave (st : State) : State := setIsDragging false st.
Definition onDrop (isSafari : bool) (dropped : list File.t) (st : State) : State :=
  setIsDragging false (handleFileChange isSafari dropped st).

(** The text shown inside the drop zone. *)
Definition dropZoneText (fs : list File.t) : string :=
  match fs with
  | f :: _ => File.name f
  | [] => "Drop your PDF here or click to browse."
  end.

(** ** LoadingProgress and the progress value *)

(** [Boolean(slot)], the predicate of [partialQuestions?.filter(Boolean)]:
    a slot holding an object is truthy, an [undefined] slot is not. *)
Definition slotPresent (q : Slot) : bool :=
  JS.truthy_opt JS.truthy_object q.

(** [const validQuestions = partialQuestions?.filter(Boolean)] *)
Definition validQuestions (partial : option (list Slot)) : option (list Slot) :=
  option_map (filter slotPresent) partial.

(** The status line of [LoadingProgress].  An array, also an empty one, is
    truthy, so the first branch is taken whenever [partialQuestions] is
    defined. *)
Definition statusLine (partial : option (list Slot)) : string :=
  match validQuestions partial with
  | Some vq =>
      "Generating question " ++ JS.string_of_nat (length vq + 1) ++ " of 4"
  | None => "Analyzing PDF content"
  end.

(** [const progress = partialQuestions ? (partialQuestions.length / 4) * 100 : 0].
    The value is kept as a rational.  For an array length [n] the double
    [n / 4] is exact (a division by a power of two) and so is its product
    with 100, the integer [25 * n]: the rational is the number JavaScript
    computes. *)
Definition progress (partial : option (list Slot)) : Q :=
  match partial with
  | Some p => (inject_Z (Z.of_nat (length p)) / 4) * 100
  | None => 0
  end.

(** What [LoadingProgress] puts on the screen. *)
Record LoadingFooter : Type := mkFooter {
  percentText : string;
  barValue : Q;
  statusText : string
}.

(** [LoadingProgress]: [isLoading && (...)] renders nothing unless loading. *)
Definition LoadingProgress (loading : bool) (value : Q)
    (partial : option (list Slot)) : option LoadingFooter :=
  if loading then
    Some {| percentText := JS.string_of_Z (JS.Math_round value) ++ "%";
            barValue := value;
            statusText := statusLine partial |}
  else None.

(** The pair (percentage, status line) derived from one partial emission. *)
Definition project (partial : option (list Slot)) : Q * string :=
  (progress partial, statusLine partial).

(** One emission comes later than another in a submission: the object starts
    [undefined], and the array only grows (slots are replaced by index). *)
Definition emissionExtends (earlier later : option (list Slot)) : Prop :=
  match earlier, later with
  | None, _ => True
  | Some p1, Some p2 => (length p1 <= length p2)%nat
  | Some _, None => False
  end.

(** ** The callbacks given to [experimental_useObject] *)

(** Every member of the union ["A" | "B" | "C" | "D"] is a non-empty string. *)
Definition truthy_answer (_ : Answer) : bool := true.

(** [(q) => q && q.question && q.options && q.answer] under [ToBoolean]. *)
Definition isValidQuestion (q : Slot) : bool :=
  match q with
  | None => false
  | Some d =>
      JS.truthy_opt JS.truthy_string (question d)
      && JS.truthy_opt JS.truthy_object (options d)
      && JS.truthy_opt truthy_answer (answer d)
  end.

(** [onError] *)
Definition onError (st : State) : State :=
  setFiles [] (toast_error GENERATION_FAILED_MESSAGE st).

(** [onFinish({ object })]; [object] is [undefined] when the final value did
    not validate against the schema. *)
Definition onFinish (object : option (list Slot)) (st : State) : State :=
  let validatedQuestions := option_map (filter isValidQuestion) object in
  setQuestions (JS.nullish validatedQuestions []) st.

(** ** Submission *)

(** [encodeFileAsBase64]: the promise of the data URL of a file, with
    [reader] standing for [FileReader.readAsDataURL] followed by [onload]
    ([Some]) or [onerror] ([None], the promise rejects). *)
Definition encodeFileAsBase64 (reader : File.t -> option string)
    (file : File.t) : option string :=
  reader file.

(** [async (file) => ({ name: file.name, type: file.type, data: await ... })] *)
Definition encodeFile (reader : File.t -> option string) (file : File.t)
    : option EncodedFile.t :=
  match encodeFileAsBase64 reader file with
  | Some d =>
      Some {| EncodedFile.name := File.name file;
              EncodedFile.type := File.type file;
              EncodedFile.data := d |}
  | None => None
  end.

(** [Promise.all(files.map(...))]: all encodings, or a rejection. *)
Fixpoint encodeAll (reader : File.t -> option string) (fs : list File.t)
    : option (list EncodedFile.t) :=
  match fs with
  | [] => Some []
  | f :: rest =>
      match encodeFile reader f, encodeAll reader rest with
      | Some e, Some es => Some (e :: es)
      | _, _ => None
      end
  end.

(** How a call of [handleSubmitWithFiles] ends. *)
Inductive SubmitOutcome : Type :=
| EncodeRejected
    (* a read failed: nothing was submitted *)
| TitleRequested (payload : list EncodedFile.t) (fileName : string)
    (* [submit] was called, then [generateQuizTitle(fileName)] *)
| TypeErrorThrown (payload : list EncodedFile.t)
    (* [submit] was called, then [encodedFiles[0]] was [undefined] *).

(** [submit(input)] of the hook: the object is reset and loading starts. *)
Definition hookSubmit (st : State) : State :=
  setIsLoading true (setObject None st).

(** [handleSubmitWithFiles] up to the call of [generateQuizTitle]; the title
    is stored by [onTitleResolved] when that promise resolves. *)
Definition handleSubmitWithFiles (reader : File.t -> option string)
    (st : State) : State * SubmitOutcome :=
  match encodeAll reader (files st) with
  | None => (st, EncodeRejected)
  | Some encodedFiles =>
      let st1 := hookSubmit st in
      match nth_error encodedFiles 0 with
      | Some first => (st1, TitleRequested encodedFiles (EncodedFile.name first))
      | None => (st1, TypeErrorThrown encodedFiles)
      end
  end.

(** [setTitle(generatedTitle)] *)
Definition onTitleResolved (generatedTitle : string) (st : State) : State :=
  setTitle (Some generatedTitle) st.

(** [clearPDF] *)
Definition clearPDF (st : State) : State :=
  setQuestions [] (setFiles [] st).

(** ** What the page renders *)

Inductive View : Type :=
| QuizView (shownTitle : string) (shownQuestions : list Slot)
| UploadView (overlay : bool) (zoneText : string) (submitDisabled : bool)
    (buttonLabel : string) (footer : option LoadingFooter).

(** [disabled={files.length === 0}] *)
Definition submitDisabled (st : State) : bool :=
  (length (files st) =? 0)%nat.

(** The body of [ChatWithFiles] after the hooks. *)
Definition ChatWithFiles (st : State) : View :=
  let value := progress (partialQuestions st) in
  if (length (questions st) =? 4)%nat then
    QuizView (JS.nullish (title st) "Quiz") (questions st)
  else
    UploadView (isDragging st)
      (dropZoneText (files st))
      (submitDisabled st)
      (if isLoading st then "Generating Quiz..." else "Generate Quiz")
      (LoadingProgress (isLoading st) value (partialQuestions st)).

Definition isQuizView (v : View) : bool :=
  match v with
  | QuizView _ _ => true
  | UploadView _ _ _ _ _ => false
  end.

(** ** A session: the page driven by user and stream events *)

(** The page state together with the number of generation requests that
    were sent and have neither finished nor failed yet. *)
Record World : Type := mkWorld {
  ui : State;
  inflight : nat
}.

Definition initialWorld : World :=
  {| ui := initialState; inflight := 0 |}.

Inductive Event : Type :=
| DragOver
| DragLeave
| Drop (isSafari : bool) (dropped : list File.t)
| Pick (isSafari : bool) (selected : list File.t)
| Submit
| StreamPartial (partial : list Slot)
| StreamFinish (object : option (list Slot))
| StreamError
| TitleResolved (generatedTitle : string)
| Clear.

Definition onUi (f : State -> State) (w : World) : World :=
  {| ui := f (ui w); inflight := inflight w |}.

(** One event.  The streaming hook is taken by its interface: [submit]
    resets the object and starts loading, every increment replaces the
    object, the end of the stream stops loading and calls [onFinish] with
    the validated object (or [undefined]), a failure calls [onError] and
    stops loading.  A submission is one step: the files read are those of
    the render in which the form was submitted. *)
Definition step (reader : File.t -> option string) (e : Event) (w : World)
    : World :=
  match e with
  | DragOver => onUi onDragOver w
  | DragLeave => onUi onDragLeave w
  | Drop isSafari dropped => onUi (onDrop isSafari dropped) w
  | Pick isSafari selected => onUi (handleFileChange isSafari selected) w
  | Submit =>
      match handleSubmitWithFiles reader (ui w) with
      | (st, EncodeRejected) => {| ui := st; inflight := inflight w |}
      | (st, _) => {| ui := st; inflight := S (inflight w) |}
      end
  | StreamPartial partial => onUi (setObject (Some partial)) w
  | StreamFinish object =>
      {| ui := onFinish object (setIsLoading false (ui w));
         inflight := pred (inflight w) |}
  | StreamError =>
      {| ui := setIsLoading false (onError (ui w));
         inflight := pred (inflight w) |}
  | TitleResolved generatedTitle => onUi (onTitleResolved generatedTitle) w
  | Clear => onUi clearPDF w
  end.

(** Which events the rendered page and the running requests allow: the drop
    zone and the form exist only in the upload view, the submit button is
    inert while disabled, the clear control belongs to the quiz view, and a
    stream event needs a request in flight.  A title may arrive at any time. *)
Definition enabled (e : Event) (w : World) : bool :=
  match e with
  | DragOver | DragLeave | Drop _ _ | Pick _ _ =>
      negb (isQuizView (ChatWithFiles (ui w)))
  | Submit =>
      negb (isQuizView (ChatWithFiles (ui w))) && negb (submitDisabled (ui w))
  | StreamPartial _ | StreamFinish _ | StreamError =>
      negb (inflight w =? 0)%nat
  | TitleResolved _ => true
  | Clear => isQuizView (ChatWithFiles (ui w))
  end.

(** Serialized use: no submission is started while another is in flight. *)
Definition serialized (e : Event) (w : World) : bool :=
  match e with
  | Submit => (inflight w =? 0)%nat
  | _ => true
  end.

(** A serialized run of events; [None] when an event is not allowed. *)
Fixpoint run (reader : File.t -> option string) (es : list Event) (w : World)
    : option World :=
  match es with
  | [] => Some w
  | e :: rest =>
      if enabled e w && serialized e w
      then run reader rest (step reader e w)
      else None
  end.

(** The same without the serialization requirement. *)
Fixpoint runAny (reader : File.t -> option string) (es : list Event) (w : World)
    : option World :=
  match es with
  | [] => Some w
  | e :: rest =>
      if enabled e w then runAny reader rest (step reader e w) else None
  end.

(** What holds in every state of a serialized session: at most one request
    is in flight, the hook reports loading exactly while one is, and the
    quiz is not on the screen during that time. *)
Definition sessionInvariant (w : World) : Prop :=
  (inflight w <= 1)%nat
  /\ isLoading (ui w) = negb (inflight w =? 0)%nat
  /\ (inflight w <> 0%nat -> length (questions (ui w)) <> 4%nat).

(** ** Sample data *)

Module Sample.

Definition pdf : File.t :=
  {| File.name := "notes.pdf"; File.type := "application/pdf"; File.size := 2048 |}.

Definition png : File.t :=
  {| File.name := "photo.png"; File.type := "image/png"; File.size := 1000 |}.

Definition bigPdf : File.t :=
  {| File.name := "book.pdf"; File.type := "application/pdf";
     File.size := 5 * 1024 * 1024 + 1 |}.

Definition reader (f : File.t) : option string :=
  Some ("data:" ++ File.type f ++ ";base64,AAAA")%string.

Definition q (text : string) (a : Answer) : Slot :=
  Some {| question := Some text;
          options := Some ["one"; "two"; "three"; "four"];
          answer := Some a |}.

Definition q1 : Slot := q "What is the first topic?" A.
Definition q2 : Slot := q "What is the second topic?" B.
Definition q3 : Slot := q "What is the third topic?" C.
Definition q4 : Slot := q "What is the fourth topic?" D.

(** A draft that conforms to the question type with an empty question. *)
Definition qEmpty : Slot := q EmptyString D.

(** The session after a file was picked and submitted. *)
Definition streaming : list Event := [Pick false [pdf]; Submit].

(** The session up to a quiz of four valid questions. *)
Definition completed : list Event :=
  streaming ++ [StreamPartial [q1]; StreamPartial [q1; q2];
                StreamFinish (Some [q1; q2; q3; q4])].

(** The session while the second draft has just arrived. *)
Definition twoDrafts : list Event :=
  streaming ++ [StreamPartial [q1]; StreamPartial [q1; q2]].

(** The session when a run of events is over. *)
Definition worldAfter (es : list Event) : World :=
  match run reader es initialWorld with
  | Some w => w
  | None => initialWorld
  end.

Definition stateAfter (es : list Event) : State := ui (worldAfter es).

Definition completedState : State := stateAfter completed.

End Sample.

(** ** The user-agent test of [handleFileChange]

    [/^((?!chrome|android).)*safari/i.test(navigator.userAgent)]: the
    regular expression is kept as a syntax tree and run by a backtracking
    matcher written with continuations, the way the language defines
    [RegExp.prototype.test].  Strings are sequences of UTF-16 code units. *)

Module RegExp.

Inductive Regex : Type :=
| Empty
| Bol                        (* [^] *)
| Char (c : N)               (* a pattern character *)
| Dot                        (* [.] *)
| Seq (r1 r2 : Regex)
| Alt (r1 r2 : Regex)        (* [r1|r2] *)
| Star (r : Regex)           (* [r*], greedy *)
| NegLookahead (r : Regex)   (* [(?!r)] *).

(** Where a match has arrived: the index reached and the input from there. *)
Record MatchState : Type := mkMatchState {
  endIndex : nat;
  rest : list N
}.

Definition Continuation : Type := MatchState -> bool.
Definition Matcher : Type := MatchState -> Continuation -> bool.

(** Comparison under the [i] flag: a code unit is replaced by its upper
    case.  Only the letters a-z are mapped here: the pattern characters are
    below 128, and a code unit of 128 or more is never equal to one of them
    under the flag, whatever its upper case. *)
Definition canonicalize (ch : N) : N :=
  if ((97 <=? ch) && (ch <=? 122))%N then (ch - 32)%N else ch.

(** The code units [.] does not match: LF, CR, U+2028 and U+2029. *)
Definition isLineTerminator (ch : N) : bool :=
  ((ch =? 10) || (ch =? 13) || (ch =? 8232) || (ch =? 8233))%N.

Definition advance (x : MatchState) (tl : list N) : MatchState :=
  {| endIndex := S (endIndex x); rest := tl |}.

(** [m*]: one more iteration, which has to consume input, or the rest of
    the pattern.  [fuel] bounds the iterations; more than the length of the
    remaining input is never used up. *)
Fixpoint repeatMatcher (m : Matcher) (fuel : nat) (x : MatchState)
    (k : Continuation) : bool :=
  match fuel with
  | O => k x
  | S fuel' =>
      m x (fun y =>
             if (endIndex x <? endIndex y)%nat
             then repeatMatcher m fuel' y k
             else false)
      || k x
  end.

Fixpoint compile (r : Regex) : Matcher :=
  fun x k =>
  match r with
  | Empty => k x
  | Bol => (endIndex x =? 0)%nat && k x
  | Char c =>
      match rest x with
      | ch :: tl => (canonicalize ch =? canonicalize c)%N && k (advance x tl)
      | [] => false
      end
  | Dot =>
      match rest x with
      | ch :: tl => negb (isLineTerminator ch) && k (advance x tl)
      | [] => false
      end
  | Seq r1 r2 => compile r1 x (fun y => compile r2 y k)
  | Alt r1 r2 => compile r1 x k || compile r2 x k
  | Star r1 => repeatMatcher (compile r1) (S (length (rest x))) x k
  | NegLookahead r1 => negb (compile r1 x (fun _ => true)) && k x
  end.

(** One attempt of [test], started at [lastIndex]. *)
Definition matchFrom (r : Regex) (input : list N) (lastIndex : nat) : bool :=
  compile r {| endIndex := lastIndex; rest := skipn lastIndex input |}
    (fun _ => true).

(** [r.test(input)] without the [g] and [y] flags: the attempts start at
    index 0, 1, ... up to the length of the input. *)
Definition test (r : Regex) (input : list N) : bool :=
  existsb (matchFrom r input) (seq 0 (S (length input))).

(** The code units of a string of characters below 256. *)
Definition codeUnits (s : string) : list N :=
  map N_of_ascii (list_ascii_of_string s).

(** A run of pattern characters. *)
Fixpoint literal (pattern : list N) : Regex :=
  match pattern with
  | [] => Empty
  | c :: tl => Seq (Char c) (literal tl)
  end.

(** [input] begins with the characters of [pattern], letter case ignored. *)
Fixpoint startsWith (pattern input : list N) : bool :=
  match pattern, input with
  | [], _ => true
  | c :: pt, ch :: tl =>
      (canonicalize ch =? canonicalize c)%N && startsWith pt tl
  | _ :: _, [] => false
  end.

End RegExp.

(** [(?!chrome|android).] *)
Definition SKIP : RegExp.Regex :=
  RegExp.Seq
    (RegExp.NegLookahead
       (RegExp.Alt (RegExp.literal (RegExp.codeUnits "chrome"))
                   (RegExp.literal (RegExp.codeUnits "android"))))
    RegExp.Dot.

(** [/^((?!chrome|android).)*safari/i] *)
Definition SAFARI_PATTERN : RegExp.Regex :=
  RegExp.Seq RegExp.Bol
    (RegExp.Seq (RegExp.Star SKIP)
       (RegExp.literal (RegExp.codeUnits "safari"))).

(** [const isSafari = /.../i.test(navigator.userAgent)] *)
Definition isSafari (userAgent : list N) : bool :=
  RegExp.test SAFARI_PATTERN userAgent.

(** [handleFileChange] in a browser with the given user agent. *)
Definition handleFileChangeIn (userAgent : list N) (selectedFiles : list File.t)
    (st : State) : State :=
  handleFileChange (isSafari userAgent) selectedFiles st.

Definition onDropIn (userAgent : list N) (dropped : list File.t) (st : State)
    : State :=
  onDrop (isSafari userAgent) dropped st.

(** The character at the front of [input] can be passed by [SKIP]. *)
Definition skippable (input : list N) : bool :=
  negb (RegExp.startsWith (RegExp.codeUnits "chrome") input
        || RegExp.startsWith (RegExp.codeUnits "android") input)
  && match input with
     | ch :: _ => negb (RegExp.isLineTerminator ch)
     | [] => false
     end.

(** The same test as one pass over the user agent, without backtracking. *)
Fixpoint scanSafari (input : list N) : bool :=
  RegExp.startsWith (RegExp.codeUnits "safari") input
  || (skippable input
      && match input with
         | _ :: tl => scanSafari tl
         | [] => false
         end).

(** User agents of four browsers. *)
Module UserAgents.

Definition chrome : list N :=
  RegExp.codeUnits
    "Mozilla/5.0 (Windows NT 10.0; Win64; x64) AppleWebKit/537.36 (KHTML, like Gecko) Chrome/120.0.0.0 Safari/537.36".

Definition safari : list N :=
  RegExp.codeUnits
    "Mozilla/5.0 (Macintosh; Intel Mac OS X 10_15_7) AppleWebKit/605.1.15 (KHTML, like Gecko) Version/17.0 Safari/605.1.15".

Definition android : list N :=
  RegExp.codeUnits
    "Mozilla/5.0 (Linux; Android 13; Pixel 7) AppleWebKit/537.36 (KHTML, like Gecko) Chrome/120.0.0.0 Mobile Safari/537.36".

Definition firefox : list N :=
  RegExp.codeUnits
    "Mozilla/5.0 (X11; Linux x86_64; rv:120.0) Gecko/20100101 Firefox/120.0".

End UserAgents.

(** The title that the events of a session leave stored: the one of the
    last title request that resolved, if any did. *)
Definition lastResolvedTitle (es : list Event) (start : option string)
    : option string :=
  fold_left
    (fun stored e =>
       match e with
       | TitleResolved generatedTitle => Some generatedTitle
       | _ => stored
       end)
    es start.

(** * Properties *)

(** ** Auxiliary facts *)

Lemma isValidFile_iff (f : File.t) :
  isValidFile f = true <->
  File.type f = "application/pdf" /\ (File.size f <= 5 * 1024 * 1024)%Z.
Proof.
  unfold isValidFile, PDF_MIME, MAX_SIZE.
  rewrite andb_true_iff, String.eqb_eq, Z.leb_le.
  reflexivity.
Qed.

Lemma filter_keeps_all {X : Type} (p : X -> bool) (l : list X) :
  length (filter p l) = length l <-> forallb p l = true.
Proof.
  split.
  - apply filter_length_forallb.
  - intros Hall. rewrite (forallb_filter_id p l Hall). reflexivity.
Qed.

Lemma forallb_false_exists {X : Type} (p : X -> bool) (l : list X) :
  forallb p l = false <-> exists x, In x l /\ p x = false.
Proof.
  induction l as [| a l IH]; simpl.
  - split; [discriminate | intros [x [[] _]]].
  - rewrite andb_false_iff, IH. split.
    + intros [Ha | [x [Hin Hx]]]; eauto.
    + intros [x [[-> | Hin] Hx]]; eauto.
Qed.

Lemma isValidQuestion_iff (q : Slot) :
  isValidQuestion q = true <->
  exists text opts a,
    q = Some {| question := Some text; options := Some opts; answer := Some a |}
    /\ text <> EmptyString.
Proof.
  split.
  - destruct q as [[[text |] [opts |] [a |]] |]; simpl; try discriminate;
      try (rewrite andb_false_r; discriminate).
    unfold JS.truthy_string, JS.truthy_object, truthy_answer.
    rewrite !andb_true_r, negb_true_iff, String.eqb_neq.
    intros Hne. exists text, opts, a. split; [reflexivity | exact Hne].
  - intros (text & opts & a & -> & Hne). simpl.
    unfold JS.truthy_string, JS.truthy_object, truthy_answer.
    rewrite !andb_true_r, negb_true_iff, String.eqb_neq. exact Hne.
Qed.

(** ** File acceptance ([handleFileChange]) *)

(** When the Safari guard fires the handler returns before the filter. *)
Lemma handleFileChange_safari_drag (selectedFiles : list File.t) (st : State) :
  isDragging st = true ->
  handleFileChange true selectedFiles st = toast_error SAFARI_MESSAGE st.
Proof.
  intros Hdrag. unfold handleFileChange. rewrite Hdrag. reflexivity.
Qed.

(** C4, as stated, fails on a drop in Safari: the dropped PDF is valid, yet
    nothing is staged and the Safari notification is raised instead. *)
Lemma handleFileChange_safari_drop_rejects_valid_pdf :
  let st := onDragOver initialState in
  let st' := onDrop true [Sample.pdf] st in
  isValidFile Sample.pdf = true
  /\ files st' = []
  /\ ~ In Sample.pdf (files st')
  /\ toasts st' = [SAFARI_MESSAGE].
Proof.
  cbv zeta. repeat split; try reflexivity.
  intros [].
Qed.

(** C4 (amended): unless the Safari drag guard fires, the staged set becomes
    exactly the selected files of type application/pdf and of at most
    5 * 1024 * 1024 bytes, in their order; the warning is raised exactly when
    a selected file was excluded; a drop stages the same files as the picker.
    When the guard fires, the staged set and the selection are left alone and
    the Safari notification is raised. *)
Theorem handleFileChange_stages_valid_files :
  forall (isSafari : bool) (selectedFiles : list File.t) (st : State),
    let st' := handleFileChange isSafari selectedFiles st in
    (isSafari && isDragging st = false ->
       files st' = filter isValidFile selectedFiles
       /\ (forall f, In f (files st') <->
             In f selectedFiles
             /\ File.type f = "application/pdf"
             /\ (File.size f <= 5 * 1024 * 1024)%Z)
       /\ ((exists f, In f selectedFiles /\ ~ In f (files st')) ->
             toasts st' = INVALID_FILE_MESSAGE :: toasts st)
       /\ ((forall f, In f selectedFiles -> In f (files st')) ->
             toasts st' = toasts st))
    /\ (isSafari && isDragging st = true ->
          files st' = files st /\ toasts st' = SAFARI_MESSAGE :: toasts st)
    /\ files (onDrop isSafari selectedFiles st) = files st'
    /\ toasts (onDrop isSafari selectedFiles st) = toasts st'.
Proof.
  intros isSafari selectedFiles st. cbv zeta.
  assert (Hmem : forall f, In f (filter isValidFile selectedFiles) <->
                   In f selectedFiles
                   /\ File.type f = "application/pdf"
                   /\ (File.size f <= 5 * 1024 * 1024)%Z).
  { intros f. rewrite filter_In, isValidFile_iff. reflexivity. }
  split; [| split; [| split; reflexivity]].
  - intros Hguard. unfold handleFileChange. rewrite Hguard.
    destruct (forallb isValidFile selectedFiles) eqn:Hall.
    + (* nothing excluded *)
      pose proof (proj2 (filter_keeps_all _ _) Hall) as Hlen.
      rewrite Hlen, Nat.eqb_refl. simpl.
      split; [reflexivity | split; [exact Hmem | split]].
      * intros [f [Hin Hout]]. exfalso. apply Hout.
        rewrite (forallb_filter_id _ _ Hall). exact Hin.
      * reflexivity.
    + (* at least one file excluded *)
      assert (Hlen : (length (filter isValidFile selectedFiles)
                      =? length selectedFiles)%nat = false).
      { apply Nat.eqb_neq. intros Heq.
        apply filter_keeps_all in Heq. congruence. }
      rewrite Hlen. simpl.
      split; [reflexivity | split; [exact Hmem | split]].
      * reflexivity.
      * intros Hall'. exfalso.
        apply forallb_false_exists in Hall. destruct Hall as [f [Hin Hf]].
        specialize (Hall' f Hin). apply filter_In in Hall'.
        destruct Hall' as [_ Hv]. congruence.
  - intros Hguard. unfold handleFileChange. rewrite Hguard.
    split; reflexivity.
Qed.

(** The selection of the specification's example: a PNG of 1000 bytes next
    to a valid PDF is left out, the PDF is staged, the warning is raised. *)
Lemma handleFileChange_stages_valid_files_witness :
  files (handleFileChange false [Sample.png; Sample.pdf] initialState)
    = [Sample.pdf]
  /\ toasts (handleFileChange false [Sample.png; Sample.pdf] initialState)
    = [INVALID_FILE_MESSAGE].
Proof.
  destruct (handleFileChange_stages_valid_files
              false [Sample.png; Sample.pdf] initialState)
    as [Hopen _].
  destruct (Hopen eq_refl) as (Hfiles & _ & Hwarn & _).
  split.
  - rewrite Hfiles. reflexivity.
  - rewrite Hwarn; [reflexivity |].
    exists Sample.png. split; [left; reflexivity |].
    rewrite Hfiles. simpl. intros [Heq | []]. discriminate Heq.
Defined.

(** ** The end of the stream ([onFinish]) *)

Lemma onFinish_questions (object : option (list Slot)) (st : State) :
  questions (onFinish object st)
  = match object with
    | Some elements => filter isValidQuestion elements
    | None => []
    end.
Proof.
  destruct object; reflexivity.
Qed.

(** [onFinish] touches the [questions] cell only. *)
Lemma onFinish_frame (object : option (list Slot)) (st : State) :
  files (onFinish object st) = files st
  /\ isDragging (onFinish object st) = isDragging st
  /\ title (onFinish object st) = title st
  /\ partialQuestions (onFinish object st) = partialQuestions st
  /\ isLoading (onFinish object st) = isLoading st
  /\ toasts (onFinish object st) = toasts st.
Proof.
  repeat split.
Qed.

(** C5: the questions kept when the stream finishes are exactly the streamed
    elements, in order, whose question, options and answer are all present
    and truthy; the others are dropped without any notification and without
    touching the rest of the state. *)
Theorem onFinish_keeps_exactly_full_elements :
  forall (elements : list Slot) (st : State),
    questions (onFinish (Some elements) st) = filter isValidQuestion elements
    /\ (forall q, In q (questions (onFinish (Some elements) st)) <->
          In q elements
          /\ exists text opts a,
               q = Some {| question := Some text;
                           options := Some opts;
                           answer := Some a |}
               /\ text <> EmptyString)
    /\ toasts (onFinish (Some elements) st) = toasts st
    /\ files (onFinish (Some elements) st) = files st.
Proof.
  intros elements st.
  split; [reflexivity | split; [| split; reflexivity]].
  intros q. rewrite onFinish_questions, filter_In, isValidQuestion_iff.
  reflexivity.
Qed.

(** C1, as stated, fails: a finished stream of four elements of the question
    type, one of them with an empty question text, leaves three questions. *)
Lemma onFinish_can_leave_three_questions :
  option_map (fun w => length (questions (ui w)))
    (run Sample.reader
       (Sample.streaming
          ++ [StreamFinish
                (Some [Sample.q1; Sample.q2; Sample.q3; Sample.qEmpty])])
       initialWorld)
  = Some 3%nat.
Proof.
  reflexivity.
Qed.

(** C1 (amended): after [onFinish] the questions state holds exactly the
    elements of the final object that pass the full-field check, in their
    order, none when the object is undefined.  Its length is at most the
    number of streamed elements and equals it exactly when every element
    passes; so for a stream of four elements it is some number from 0 to 4,
    and 4 exactly when all four pass.  The quiz is shown exactly when the
    length is 4. *)
Theorem onFinish_questions_length :
  forall (object : option (list Slot)) (st : State),
    let elements := JS.nullish object [] in
    let n := length (questions (onFinish object st)) in
    questions (onFinish object st) = filter isValidQuestion elements
    /\ (forall q, In q (questions (onFinish object st)) <->
          In q elements
          /\ exists text opts a,
               q = Some {| question := Some text;
                           options := Some opts;
                           answer := Some a |}
               /\ text <> EmptyString)
    /\ questions (onFinish None st) = []
    /\ (n <= length elements)%nat
    /\ (n = length elements <-> forallb isValidQuestion elements = true)
    /\ (length elements = 4%nat ->
          (n = 4%nat <-> forallb isValidQuestion elements = true))
    /\ isQuizView (ChatWithFiles (onFinish object st)) = (n =? 4)%nat.
Proof.
  intros object st. cbv zeta.
  assert (Hq : questions (onFinish object st)
               = filter isValidQuestion (JS.nullish object []))
    by (destruct object; reflexivity).
  split; [exact Hq |].
  split.
  { intros q. rewrite Hq, filter_In, isValidQuestion_iff. reflexivity. }
  split; [reflexivity |].
  unfold ChatWithFiles. rewrite Hq.
  split; [apply filter_length_le |].
  split; [apply filter_keeps_all |].
  split.
  - intros Hfour. rewrite <- Hfour. apply filter_keeps_all.
  - destruct (length (filter isValidQuestion (JS.nullish object [])) =? 4)%nat;
      reflexivity.
Qed.

(** Four valid elements give a set of four, shown as the quiz. *)
Lemma onFinish_questions_length_witness :
  length (questions
            (onFinish (Some [Sample.q1; Sample.q2; Sample.q3; Sample.q4])
               initialState)) = 4%nat.
Proof.
  pose proof (onFinish_questions_length
                (Some [Sample.q1; Sample.q2; Sample.q3; Sample.q4])
                initialState) as H.
  cbv zeta in H.
  destruct H as (_ & _ & _ & _ & _ & Hfour & _).
  apply (Hfour eq_refl). reflexivity.
Defined.

(** ** Progress ([progress], [LoadingProgress]) *)

Lemma slotPresent_iff (q : Slot) : slotPresent q = true <-> q <> None.
Proof.
  destruct q as [d |]; simpl; split; intros H;
    try reflexivity; try discriminate; try congruence.
Qed.

Lemma progress_defined (p : list Slot) :
  progress (Some p) == inject_Z (25 * Z.of_nat (length p)).
Proof.
  unfold progress. rewrite inject_Z_mult. field.
Qed.

Lemma progress_nonneg (partial : option (list Slot)) : 0 <= progress partial.
Proof.
  destruct partial as [p |].
  - rewrite progress_defined. change 0 with (inject_Z 0).
    rewrite <- Zle_Qle. lia.
  - apply Qle_refl.
Qed.

Lemma progress_length_le (p1 p2 : list Slot) :
  (length p1 <= length p2)%nat -> progress (Some p1) <= progress (Some p2).
Proof.
  intros Hle. rewrite !progress_defined, <- Zle_Qle. lia.
Qed.

(** C2: with no object yet the projection is 0 and the line
    "Analyzing PDF content"; for every defined partial array the line is
    "Generating question k of 4" with k one more than the number of slots
    that are not undefined; a single draft gives "Generating question 2 of 4"
    and 25 percent. *)
Theorem project_status_line :
  project None = (0, "Analyzing PDF content")
  /\ (forall partial : list Slot,
        snd (project (Some partial))
        = ("Generating question "
             ++ JS.string_of_nat (length (filter slotPresent partial) + 1)
             ++ " of 4")%string
        /\ (forall q, In q (filter slotPresent partial) <->
              In q partial /\ q <> None))
  /\ (forall d0 : QuestionDraft,
        snd (project (Some [Some d0])) = "Generating question 2 of 4"
        /\ fst (project (Some [Some d0])) == 25
        /\ LoadingProgress true (fst (project (Some [Some d0])))
             (Some [Some d0])
           = Some {| percentText := "25%";
                     barValue := fst (project (Some [Some d0]));
                     statusText := "Generating question 2 of 4" |}).
Proof.
  split; [reflexivity | split].
  - intros partial. split; [reflexivity |].
    intros q. rewrite filter_In, slotPresent_iff. reflexivity.
  - intros d0. split; [reflexivity | split; [| reflexivity]].
    simpl. reflexivity.
Qed.

(** C3: the percentage is [(n / 4) * 100], that is [25 * n], for a defined
    array of [n] drafts and 0 for an undefined one; it lies between 0 and 100
    for at most four drafts; and a later emission of a submission never
    has a smaller percentage than an earlier one. *)
Theorem progress_quarters_and_monotone :
  progress None = 0
  /\ (forall p : list Slot,
        progress (Some p) = (inject_Z (Z.of_nat (length p)) / 4) * 100
        /\ progress (Some p) == inject_Z (25 * Z.of_nat (length p)))
  /\ (forall p : list Slot,
        (length p <= 4)%nat -> 0 <= progress (Some p) <= 100)
  /\ (forall earlier later : option (list Slot),
        emissionExtends earlier later -> progress earlier <= progress later)
  /\ (forall p more : list Slot,
        progress (Some p) <= progress (Some (p ++ more))).
Proof.
  split; [reflexivity | split; [| split; [| split]]].
  - intros p. split; [reflexivity | apply progress_defined].
  - intros p Hle. split; [apply progress_nonneg |].
    rewrite progress_defined. change 100 with (inject_Z 100).
    rewrite <- Zle_Qle. lia.
  - intros [p1 |] [p2 |] Hext; simpl in Hext.
    + apply progress_length_le. exact Hext.
    + contradiction.
    + apply progress_nonneg.
    + apply Qle_refl.
  - intros p more. apply progress_length_le.
    rewrite length_app. lia.
Qed.

(** Two successive emissions, of one and of two drafts: 25 then 50. *)
Lemma progress_quarters_and_monotone_witness :
  progress (Some [Sample.q1]) <= progress (Some [Sample.q1; Sample.q2]).
Proof.
  destruct progress_quarters_and_monotone as (_ & _ & _ & Hmono & _).
  apply (Hmono (Some [Sample.q1]) (Some [Sample.q1; Sample.q2])).
  simpl. lia.
Defined.

(** ** The view switch ([ChatWithFiles]) *)

Lemma ChatWithFiles_quiz (st : State) :
  length (questions st) = 4%nat ->
  ChatWithFiles st = QuizView (JS.nullish (title st) "Quiz") (questions st).
Proof.
  intros Hfour. unfold ChatWithFiles. rewrite Hfour. reflexivity.
Qed.

Lemma ChatWithFiles_upload (st : State) :
  length (questions st) <> 4%nat ->
  ChatWithFiles st
  = UploadView (isDragging st) (dropZoneText (files st)) (submitDisabled st)
      (if isLoading st then "Generating Quiz..." else "Generate Quiz")
      (LoadingProgress (isLoading st) (progress (partialQuestions st))
         (partialQuestions st)).
Proof.
  intros Hother. unfold ChatWithFiles.
  apply Nat.eqb_neq in Hother. rewrite Hother. reflexivity.
Qed.

Lemma isQuizView_iff (st : State) :
  isQuizView (ChatWithFiles st) = true <-> length (questions st) = 4%nat.
Proof.
  unfold ChatWithFiles.
  destruct (length (questions st) =? 4)%nat eqn:Hlen; simpl.
  - apply Nat.eqb_eq in Hlen. tauto.
  - apply Nat.eqb_neq in Hlen. split; [discriminate | contradiction].
Qed.

Lemma isQuizView_false_iff (st : State) :
  isQuizView (ChatWithFiles st) = false <-> length (questions st) <> 4%nat.
Proof.
  rewrite <- isQuizView_iff.
  destruct (isQuizView (ChatWithFiles st)); split; congruence.
Qed.

(** C7: the quiz view is returned exactly when the questions state has
    length 4, and the upload view otherwise; the values of the streaming
    hook (its object and its loading flag) do not enter the choice. *)
Theorem quiz_view_iff_four_questions :
  forall st : State,
    (isQuizView (ChatWithFiles st) = true <-> length (questions st) = 4%nat)
    /\ (length (questions st) = 4%nat ->
          ChatWithFiles st
          = QuizView (JS.nullish (title st) "Quiz") (questions st))
    /\ (length (questions st) <> 4%nat ->
          ChatWithFiles st
          = UploadView (isDragging st) (dropZoneText (files st))
              (submitDisabled st)
              (if isLoading st then "Generating Quiz..." else "Generate Quiz")
              (LoadingProgress (isLoading st) (progress (partialQuestions st))
                 (partialQuestions st)))
    /\ (forall (loading : bool) (object : option (list Slot)),
          isQuizView (ChatWithFiles (setIsLoading loading (setObject object st)))
          = isQuizView (ChatWithFiles st)).
Proof.
  intros st.
  split; [apply isQuizView_iff |].
  split; [apply ChatWithFiles_quiz |].
  split; [apply ChatWithFiles_upload |].
  intros loading object. unfold ChatWithFiles. simpl.
  destruct (length (questions st) =? 4)%nat; reflexivity.
Qed.

(** A stream that has finished with three valid questions does not show the
    quiz; four stored questions do, also while the hook still reports
    loading. *)
Lemma quiz_view_iff_four_questions_witness :
  isQuizView
    (ChatWithFiles
       (onFinish (Some [Sample.q1; Sample.q2; Sample.q3]) initialState))
  = false
  /\ ChatWithFiles
       (setIsLoading true
          (setQuestions [Sample.q1; Sample.q2; Sample.q3; Sample.q4]
             initialState))
     = QuizView "Quiz" [Sample.q1; Sample.q2; Sample.q3; Sample.q4].
Proof.
  split.
  - pose proof (quiz_view_iff_four_questions
                  (onFinish (Some [Sample.q1; Sample.q2; Sample.q3])
                     initialState)) as (_ & _ & Hupload & _).
    rewrite Hupload; [reflexivity |]. simpl. lia.
  - pose proof (quiz_view_iff_four_questions
                  (setIsLoading true
                     (setQuestions [Sample.q1; Sample.q2; Sample.q3; Sample.q4]
                        initialState))) as (_ & Hquiz & _).
    rewrite Hquiz; reflexivity.
Defined.

(** C10: in the quiz view the title shown is "Quiz" as long as the stored
    title is undefined, and the stored string once [setTitle] has run with
    the generated title. *)
Theorem quiz_title_fallback :
  forall st : State,
    length (questions st) = 4%nat ->
    (title st = None -> ChatWithFiles st = QuizView "Quiz" (questions st))
    /\ (forall t : string,
          title st = Some t -> ChatWithFiles st = QuizView t (questions st))
    /\ (forall generatedTitle : string,
          ChatWithFiles (onTitleResolved generatedTitle st)
          = QuizView generatedTitle (questions st)).
Proof.
  intros st Hfour. split; [| split].
  - intros Hnone. rewrite (ChatWithFiles_quiz st Hfour), Hnone. reflexivity.
  - intros t Hsome. rewrite (ChatWithFiles_quiz st Hfour), Hsome. reflexivity.
  - intros generatedTitle.
    rewrite ChatWithFiles_quiz by exact Hfour. reflexivity.
Qed.

(** The quiz reached before the title arrived, and after it arrived. *)
Lemma quiz_title_fallback_witness :
  ChatWithFiles Sample.completedState
  = QuizView "Quiz" [Sample.q1; Sample.q2; Sample.q3; Sample.q4]
  /\ ChatWithFiles (onTitleResolved "Lecture notes" Sample.completedState)
     = QuizView "Lecture notes" [Sample.q1; Sample.q2; Sample.q3; Sample.q4].
Proof.
  destruct (quiz_title_fallback Sample.completedState eq_refl)
    as (Hnone & _ & Hresolved).
  split.
  - apply Hnone. reflexivity.
  - apply Hresolved.
Defined.

(** ** Submission ([handleSubmitWithFiles]) *)

Lemma encodeAll_shape (reader : File.t -> option string) (fs : list File.t)
    (encodedFiles : list EncodedFile.t) :
  encodeAll reader fs = Some encodedFiles ->
  map EncodedFile.name encodedFiles = map File.name fs.
Proof.
  revert encodedFiles.
  induction fs as [| f rest IH]; intros encodedFiles Henc; simpl in Henc.
  - injection Henc as <-. reflexivity.
  - unfold encodeFile, encodeFileAsBase64 in Henc.
    destruct (reader f) as [d |]; [| discriminate Henc].
    destruct (encodeAll reader rest) as [es |]; [| discriminate Henc].
    injection Henc as <-. simpl. rewrite (IH es eq_refl). reflexivity.
Qed.

(** Without the guard the access does fail: with nothing staged, [submit]
    is called with an empty payload and the read of [encodedFiles[0].name]
    throws. *)
Lemma handleSubmitWithFiles_empty (reader : File.t -> option string)
    (st : State) :
  files st = [] ->
  handleSubmitWithFiles reader st = (hookSubmit st, TypeErrorThrown []).
Proof.
  intros Hempty. unfold handleSubmitWithFiles. rewrite Hempty. reflexivity.
Qed.

Lemma submitDisabled_iff (st : State) :
  submitDisabled st = true <-> files st = [].
Proof.
  unfold submitDisabled. rewrite Nat.eqb_eq. apply length_zero_iff_nil.
Qed.

Lemma enabled_Submit_files (w : World) :
  enabled Submit w = true -> files (ui w) <> [].
Proof.
  unfold enabled. rewrite andb_true_iff, !negb_true_iff.
  intros [_ Hbutton] Hempty.
  apply submitDisabled_iff in Hempty. congruence.
Qed.

(** C9: the submit button is disabled exactly when no file is staged, so an
    allowed submission has a staged file; and with a staged file the read of
    the first encoded file's name is in bounds: the handler never ends in the
    type error, and when the encoding succeeds the title is requested for the
    name of the first staged file. *)
Theorem handleSubmitWithFiles_first_in_bounds :
  forall (reader : File.t -> option string) (st : State),
    (submitDisabled st = true <-> files st = [])
    /\ (forall w : World, enabled Submit w = true -> files (ui w) <> [])
    /\ (files st <> [] ->
          match snd (handleSubmitWithFiles reader st) with
          | TypeErrorThrown _ => False
          | TitleRequested payload fileName =>
              exists first rest,
                files st = first :: rest
                /\ fileName = File.name first
                /\ nth_error (map EncodedFile.name payload) 0
                   = Some (File.name first)
          | EncodeRejected => encodeAll reader (files st) = None
          end).
Proof.
  intros reader st.
  split; [apply submitDisabled_iff |].
  split; [apply enabled_Submit_files |].
  intros Hstaged. unfold handleSubmitWithFiles.
  destruct (files st) as [| first rest] eqn:Hfiles; [contradiction |].
  destruct (encodeAll reader (first :: rest)) as [encodedFiles |] eqn:Henc;
    simpl; [| reflexivity].
  pose proof (encodeAll_shape _ _ _ Henc) as Hnames.
  destruct encodedFiles as [| e es]; simpl in Hnames; [discriminate Hnames |].
  injection Hnames as Hname _. simpl.
  exists first, rest. rewrite Hname. repeat split.
Qed.

(** With one PDF staged the title is requested for its name. *)
Lemma handleSubmitWithFiles_first_in_bounds_witness :
  exists payload,
    snd (handleSubmitWithFiles Sample.reader (setFiles [Sample.pdf] initialState))
    = TitleRequested payload "notes.pdf".
Proof.
  destruct (handleSubmitWithFiles_first_in_bounds
              Sample.reader (setFiles [Sample.pdf] initialState))
    as (_ & _ & Hbounds).
  assert (Hstaged : files (setFiles [Sample.pdf] initialState) <> [])
    by (simpl; discriminate).
  specialize (Hbounds Hstaged).
  destruct (snd (handleSubmitWithFiles Sample.reader
                   (setFiles [Sample.pdf] initialState)))
    as [| payload fileName | payload] eqn:Hout.
  - discriminate Hout.
  - destruct Hbounds as (first & rest & Hfiles & Hname & _).
    simpl in Hfiles. injection Hfiles as <- _.
    exists payload. rewrite Hname. reflexivity.
  - contradiction.
Defined.

(** ** Sessions *)

(** Handlers that leave the questions state alone. *)
Lemma handleFileChange_questions (isSafari : bool) (sel : list File.t)
    (st : State) :
  questions (handleFileChange isSafari sel st) = questions st.
Proof.
  unfold handleFileChange.
  destruct (isSafari && isDragging st); [reflexivity |].
  destruct (negb (length (filter isValidFile sel) =? length sel)%nat);
    reflexivity.
Qed.

Lemma handleFileChange_isLoading (isSafari : bool) (sel : list File.t)
    (st : State) :
  isLoading (handleFileChange isSafari sel st) = isLoading st.
Proof.
  unfold handleFileChange.
  destruct (isSafari && isDragging st); [reflexivity |].
  destruct (negb (length (filter isValidFile sel) =? length sel)%nat);
    reflexivity.
Qed.

Lemma handleSubmitWithFiles_questions (reader : File.t -> option string)
    (st : State) :
  questions (fst (handleSubmitWithFiles reader st)) = questions st.
Proof.
  unfold handleSubmitWithFiles.
  destruct (encodeAll reader (files st)) as [encodedFiles |]; [| reflexivity].
  destruct (nth_error encodedFiles 0); reflexivity.
Qed.

Lemma sessionInvariant_initial : sessionInvariant initialWorld.
Proof.
  repeat split; simpl; lia.
Qed.

Lemma sessionInvariant_step (reader : File.t -> option string) (e : Event)
    (w : World) :
  sessionInvariant w ->
  enabled e w = true ->
  serialized e w = true ->
  sessionInvariant (step reader e w).
Proof.
  intros (Hone & Hload & Hquiz) Hen Hser.
  destruct e; simpl in *.
  - (* DragOver *) repeat split; assumption.
  - (* DragLeave *) repeat split; assumption.
  - (* Drop *)
    unfold sessionInvariant, onDrop. simpl.
    rewrite handleFileChange_questions, handleFileChange_isLoading.
    repeat split; assumption.
  - (* Pick *)
    unfold sessionInvariant. simpl.
    rewrite handleFileChange_questions, handleFileChange_isLoading.
    repeat split; assumption.
  - (* Submit *)
    apply Nat.eqb_eq in Hser.
    apply andb_true_iff in Hen. destruct Hen as [Hview _].
    apply negb_true_iff, isQuizView_false_iff in Hview.
    unfold handleSubmitWithFiles.
    destruct (encodeAll reader (files (ui w))) as [encodedFiles |].
    + destruct (nth_error encodedFiles 0); unfold sessionInvariant; simpl;
        rewrite Hser; repeat split; auto.
    + unfold sessionInvariant; simpl. repeat split; assumption.
  - (* StreamPartial *) repeat split; assumption.
  - (* StreamFinish *)
    assert (Hpred : pred (inflight w) = 0%nat) by lia.
    unfold sessionInvariant. simpl. rewrite Hpred.
    repeat split; lia.
  - (* StreamError *)
    assert (Hpred : pred (inflight w) = 0%nat) by lia.
    unfold sessionInvariant. simpl. rewrite Hpred.
    repeat split; lia.
  - (* TitleResolved *) repeat split; assumption.
  - (* Clear *)
    unfold sessionInvariant. simpl. repeat split; try assumption.
    intros _. discriminate.
Qed.

Lemma sessionInvariant_run (reader : File.t -> option string)
    (es : list Event) :
  forall w w' : World,
    sessionInvariant w -> run reader es w = Some w' -> sessionInvariant w'.
Proof.
  induction es as [| e rest IH]; intros w w' Hinv Hrun; simpl in Hrun.
  - injection Hrun as <-. exact Hinv.
  - destruct (enabled e w) eqn:Hen; [| discriminate Hrun].
    destruct (serialized e w) eqn:Hser; [| discriminate Hrun].
    simpl in Hrun.
    apply (IH (step reader e w) w'); [| exact Hrun].
    apply sessionInvariant_step; assumption.
Qed.

Lemma sessionInvariant_reachable (reader : File.t -> option string)
    (es : list Event) (w : World) :
  run reader es initialWorld = Some w -> sessionInvariant w.
Proof.
  apply sessionInvariant_run. exact sessionInvariant_initial.
Qed.

(** ** A failed stream ([onError]) *)

Lemma onError_state (st : State) :
  onError st
  = {| files := [];
       questions := questions st;
       isDragging := isDragging st;
       title := title st;
       partialQuestions := partialQuestions st;
       isLoading := isLoading st;
       toasts := GENERATION_FAILED_MESSAGE :: toasts st |}.
Proof.
  reflexivity.
Qed.

(** Outside the Safari guard the handler is the filter, with the warning
    when something was filtered out. *)
Lemma handleFileChange_filtering (guard : bool) (selectedFiles : list File.t)
    (st : State) :
  guard && isDragging st = false ->
  handleFileChange guard selectedFiles st
  = setFiles (filter isValidFile selectedFiles)
      (if forallb isValidFile selectedFiles
       then st
       else toast_error INVALID_FILE_MESSAGE st).
Proof.
  intros Hguard. unfold handleFileChange. rewrite Hguard.
  destruct (forallb isValidFile selectedFiles) eqn:Hall.
  - rewrite (proj2 (filter_keeps_all _ _) Hall), Nat.eqb_refl. reflexivity.
  - replace (length (filter isValidFile selectedFiles)
             =? length selectedFiles)%nat with false; [reflexivity |].
    symmetry. apply Nat.eqb_neq. intros Heq.
    apply filter_keeps_all in Heq. congruence.
Qed.

(** After a stream event left the upload view on the screen with no request
    in flight, a selection with a valid file, made by the picker or by a
    drop outside the Safari guard, makes the submission available. *)
Lemma restage_enables_submit (reader : File.t -> option string) (w : World)
    (guard : bool) (selectedFiles : list File.t) (e : Event) :
  length (questions (ui w)) <> 4%nat ->
  inflight w = 0%nat ->
  guard && isDragging (ui w) = false ->
  (exists f, In f selectedFiles /\ isValidFile f = true) ->
  e = Pick guard selectedFiles \/ e = Drop guard selectedFiles ->
  enabled e w = true
  /\ files (ui (step reader e w)) = filter isValidFile selectedFiles
  /\ enabled Submit (step reader e w) = true
  /\ serialized Submit (step reader e w) = true.
Proof.
  intros Hupload Hidle Hguard [f [Hin Hvalid]] He.
  assert (Hview : isQuizView (ChatWithFiles (ui w)) = false)
    by (apply isQuizView_false_iff; exact Hupload).
  assert (Hui : files (ui (step reader e w)) = filter isValidFile selectedFiles
                /\ questions (ui (step reader e w)) = questions (ui w)
                /\ inflight (step reader e w) = inflight w).
  { destruct He as [-> | ->]; simpl; unfold onDrop; simpl;
      rewrite handleFileChange_questions;
      rewrite handleFileChange_filtering by exact Hguard;
      repeat split. }
  destruct Hui as (Hfiles & Hquestions & Hflight).
  assert (Hstaged : submitDisabled (ui (step reader e w)) = false).
  { apply not_true_is_false. intros Hdis.
    apply submitDisabled_iff in Hdis. rewrite Hfiles in Hdis.
    assert (Hmem : In f (filter isValidFile selectedFiles))
      by (apply filter_In; auto).
    rewrite Hdis in Hmem. exact Hmem. }
  split; [destruct He as [-> | ->]; simpl; rewrite Hview; reflexivity |].
  split; [exact Hfiles |].
  split.
  - unfold enabled. rewrite Hstaged.
    replace (isQuizView (ChatWithFiles (ui (step reader e w)))) with false;
      [reflexivity |].
    symmetry. apply isQuizView_false_iff. rewrite Hquestions. exact Hupload.
  - unfold serialized. rewrite Hflight, Hidle. reflexivity.
Qed.

(** C6, as stated, fails.  In a serialized session a first stream ends with
    three valid questions, the form is submitted again and the second
    stream fails: the three questions are still stored after the error, the
    question set is not unset.  With overlapping submissions the quiz that
    one stream completed stays on the screen when the other fails. *)
Lemma onError_keeps_stale_questions :
  option_map (fun w => questions (ui w))
    (run Sample.reader
       [Pick false [Sample.pdf]; Submit;
        StreamFinish (Some [Sample.q1; Sample.q2; Sample.q3; Sample.qEmpty]);
        Submit; StreamPartial [Sample.q1]; StreamError]
       initialWorld)
  = Some [Sample.q1; Sample.q2; Sample.q3]
  /\ option_map (fun w => isQuizView (ChatWithFiles (ui w)))
       (runAny Sample.reader
          [Pick false [Sample.pdf]; Submit; Submit;
           StreamFinish (Some [Sample.q1; Sample.q2; Sample.q3; Sample.q4]);
           StreamError]
          initialWorld)
     = Some true.
Proof.
  split; reflexivity.
Qed.

(** C6 (amended): in every state the error handler raises the error
    notification, clears the staged files and leaves the rest of the state,
    the questions and the title among it, as it was: the question set is
    empty afterwards exactly when it was empty before, and the quiz is on
    the screen afterwards exactly when it was before.  In a serialized
    session no quiz is on the screen while a stream runs, so when the stream
    fails, whatever was emitted before, the page shows the upload view with
    nothing staged, the label "Generate Quiz" and no progress footer; and a
    selection with a valid file, by the picker or by a drop outside the
    Safari guard, makes the submission available again. *)
Theorem onError_returns_to_upload :
  forall (reader : File.t -> option string) (es : list Event) (w : World),
    (forall st : State,
       toasts (onError st) = GENERATION_FAILED_MESSAGE :: toasts st
       /\ files (onError st) = []
       /\ questions (onError st) = questions st
       /\ title (onError st) = title st
       /\ isDragging (onError st) = isDragging st
       /\ partialQuestions (onError st) = partialQuestions st
       /\ isLoading (onError st) = isLoading st
       /\ (questions (onError st) = [] <-> questions st = [])
       /\ isQuizView (ChatWithFiles (onError st))
          = isQuizView (ChatWithFiles st))
    /\ (run reader es initialWorld = Some w ->
        enabled StreamError w = true ->
        let w' := step reader StreamError w in
        toasts (ui w') = GENERATION_FAILED_MESSAGE :: toasts (ui w)
        /\ files (ui w') = []
        /\ questions (ui w') = questions (ui w)
        /\ isQuizView (ChatWithFiles (ui w')) = false
        /\ ChatWithFiles (ui w')
           = UploadView (isDragging (ui w))
               "Drop your PDF here or click to browse." true "Generate Quiz"
               None
        /\ (forall f : File.t,
              isValidFile f = true ->
              let w'' := step reader (Pick false [f]) w' in
              enabled (Pick false [f]) w' = true
              /\ files (ui w'') = [f]
              /\ enabled Submit w'' = true
              /\ serialized Submit w'' = true)
        /\ (forall (guard : bool) (selectedFiles : list File.t) (e : Event),
              guard && isDragging (ui w) = false ->
              (exists f, In f selectedFiles /\ isValidFile f = true) ->
              e = Pick guard selectedFiles \/ e = Drop guard selectedFiles ->
              enabled e w' = true
              /\ files (ui (step reader e w')) = filter isValidFile selectedFiles
              /\ enabled Submit (step reader e w') = true
              /\ serialized Submit (step reader e w') = true)).
Proof.
  intros reader es w. split.
  { intros st.
    do 7 (split; [reflexivity |]).
    split; [reflexivity |].
    unfold ChatWithFiles. simpl.
    destruct (length (questions st) =? 4)%nat; reflexivity. }
  intros Hrun Hen. cbv zeta.
  destruct (sessionInvariant_reachable reader es w Hrun)
    as (Hone & Hload & Hquiz).
  simpl in Hen. apply negb_true_iff, Nat.eqb_neq in Hen.
  specialize (Hquiz Hen).
  assert (Hidle : inflight (step reader StreamError w) = 0%nat)
    by (simpl; lia).
  assert (Hview : ChatWithFiles (ui (step reader StreamError w))
                  = UploadView (isDragging (ui w))
                      "Drop your PDF here or click to browse." true
                      "Generate Quiz" None).
  { rewrite ChatWithFiles_upload by exact Hquiz. reflexivity. }
  assert (Hrestage :
            forall (guard : bool) (selectedFiles : list File.t) (e : Event),
              guard && isDragging (ui w) = false ->
              (exists f, In f selectedFiles /\ isValidFile f = true) ->
              e = Pick guard selectedFiles \/ e = Drop guard selectedFiles ->
              enabled e (step reader StreamError w) = true
              /\ files (ui (step reader e (step reader StreamError w)))
                 = filter isValidFile selectedFiles
              /\ enabled Submit (step reader e (step reader StreamError w))
                 = true
              /\ serialized Submit (step reader e (step reader StreamError w))
                 = true).
  { intros guard selectedFiles e Hguard Hsome He.
    apply (restage_enables_submit reader (step reader StreamError w)
             guard selectedFiles e); try assumption. }
  split; [reflexivity |].
  split; [reflexivity |].
  split; [reflexivity |].
  split; [rewrite Hview; reflexivity |].
  split; [exact Hview |].
  split; [| exact Hrestage].
  intros f Hvalid. cbv zeta.
  destruct (Hrestage false [f] (Pick false [f]) eq_refl) as (Hp & Hf & Hs & Hz).
  - exists f. split; [left; reflexivity | exact Hvalid].
  - left. reflexivity.
  - simpl filter in Hf. rewrite Hvalid in Hf. auto.
Qed.

(** The stream of the specification's example: it fails after two valid
    drafts were emitted. *)
Lemma onError_returns_to_upload_witness :
  let w' := step Sample.reader StreamError (Sample.worldAfter Sample.twoDrafts) in
  toasts (ui w') = [GENERATION_FAILED_MESSAGE]
  /\ files (ui w') = []
  /\ questions (ui w') = []
  /\ isQuizView (ChatWithFiles (ui w')) = false
  /\ enabled Submit (step Sample.reader (Drop true [Sample.png; Sample.pdf]) w')
     = true.
Proof.
  cbv zeta.
  destruct (onError_returns_to_upload Sample.reader Sample.twoDrafts
              (Sample.worldAfter Sample.twoDrafts))
    as [_ Hsession].
  destruct (Hsession eq_refl eq_refl)
    as (Htoasts & Hfiles & Hquestions & Hview & _ & _ & Hrestage).
  destruct (Hrestage true [Sample.png; Sample.pdf]
              (Drop true [Sample.png; Sample.pdf]) eq_refl)
    as (_ & _ & Hsubmit & _).
  - exists Sample.pdf. split; [right; left; reflexivity | reflexivity].
  - right. reflexivity.
  - split; [exact Htoasts |].
    split; [exact Hfiles |].
    split; [exact Hquestions |].
    split; [exact Hview | exact Hsubmit].
Defined.

(** Serialization is needed here as well: with two overlapping submissions
    the first stream can complete the quiz before the second one fails, and
    the quiz then stays on the screen while the staged files are cleared. *)
Remark overlapping_submissions_error_keeps_quiz :
  option_map (fun w => (isQuizView (ChatWithFiles (ui w)), files (ui w)))
    (runAny Sample.reader
       (Sample.streaming
          ++ [Submit;
              StreamFinish (Some [Sample.q1; Sample.q2; Sample.q3; Sample.q4]);
              StreamError])
       initialWorld)
  = Some (true, []).
Proof.
  reflexivity.
Qed.

(** ** Leaving the quiz ([clearPDF]) *)

Lemma clearPDF_state (st : State) :
  clearPDF st
  = {| files := [];
       questions := [];
       isDragging := isDragging st;
       title := title st;
       partialQuestions := partialQuestions st;
       isLoading := isLoading st;
       toasts := toasts st |}.
Proof.
  reflexivity.
Qed.

(** C8, as stated, fails: after the clear action the title generated for the
    previous quiz is still stored, and so is the last streamed object, so
    the state is not the initial one. *)
Lemma clearPDF_keeps_title :
  let st := Sample.stateAfter
              (Sample.completed ++ [TitleResolved "Lecture notes"; Clear]) in
  title st = Some "Lecture notes"
  /\ title initialState = None
  /\ partialQuestions st = Some [Sample.q1; Sample.q2]
  /\ st <> initialState.
Proof.
  cbv zeta. repeat split. discriminate.
Qed.

(** C8 (amended): from the quiz view of a serialized session the clear
    action empties the questions state and the staged files and thereby
    brings back the upload view with nothing staged; the stored title, the
    dragging flag, the hook's values and the notifications are left as they
    are; and every other allowed event keeps the quiz view. *)
Theorem clearPDF_leaves_quiz :
  forall (reader : File.t -> option string) (es : list Event) (w : World),
    run reader es initialWorld = Some w ->
    isQuizView (ChatWithFiles (ui w)) = true ->
    let st' := ui (step reader Clear w) in
    enabled Clear w = true
    /\ questions st' = questions initialState
    /\ files st' = files initialState
    /\ title st' = title (ui w)
    /\ isDragging st' = isDragging (ui w)
    /\ partialQuestions st' = partialQuestions (ui w)
    /\ isLoading st' = isLoading (ui w)
    /\ toasts st' = toasts (ui w)
    /\ ChatWithFiles st'
       = UploadView (isDragging (ui w))
           "Drop your PDF here or click to browse." true "Generate Quiz" None
    /\ (forall e : Event,
          enabled e w = true ->
          serialized e w = true ->
          isQuizView (ChatWithFiles (ui (step reader e w))) = false ->
          e = Clear).
Proof.
  intros reader es w Hrun Hquiz. cbv zeta.
  destruct (sessionInvariant_reachable reader es w Hrun)
    as (Hone & Hload & Hflight).
  pose proof (proj1 (isQuizView_iff (ui w)) Hquiz) as Hfour.
  assert (Hidle : inflight w = 0%nat).
  { destruct (Nat.eq_dec (inflight w) 0) as [Hz | Hnz]; [exact Hz |].
    exfalso. exact (Hflight Hnz Hfour). }
  rewrite Hidle in Hload. simpl in Hload.
  split; [exact Hquiz |].
  do 7 (split; [reflexivity |]).
  split.
  - rewrite ChatWithFiles_upload by (simpl; discriminate).
    simpl. rewrite Hload. reflexivity.
  - intros e Hen Hser Hleft.
    destruct e; simpl in Hen;
      try (rewrite Hquiz in Hen; discriminate Hen);
      try (rewrite Hidle in Hen; discriminate Hen);
      try reflexivity.
    (* TitleResolved keeps the questions, hence the quiz view *)
    exfalso. apply isQuizView_false_iff in Hleft.
    apply Hleft. exact Hfour.
Qed.

(** The clear action on the quiz of the sample session. *)
Lemma clearPDF_leaves_quiz_witness :
  let w := Sample.worldAfter (Sample.completed ++ [TitleResolved "Lecture notes"]) in
  let st' := ui (step Sample.reader Clear w) in
  questions st' = []
  /\ files st' = []
  /\ title st' = Some "Lecture notes"
  /\ isQuizView (ChatWithFiles st') = false.
Proof.
  cbv zeta.
  destruct (clearPDF_leaves_quiz Sample.reader
              (Sample.completed ++ [TitleResolved "Lecture notes"])
              (Sample.worldAfter
                 (Sample.completed ++ [TitleResolved "Lecture notes"]))
              eq_refl eq_refl)
    as (_ & Hquestions & Hfiles & Htitle & _ & _ & _ & _ & Hview & _).
  split; [exact Hquestions |].
  split; [exact Hfiles |].
  split; [exact Htitle |].
  rewrite Hview. reflexivity.
Defined.

(** Serialization is needed for the last part: when a second submission is
    started while the first is in flight, the end of the second stream can
    replace the four questions of the first and so leave the quiz view. *)
Remark overlapping_submissions_leave_quiz :
  option_map (fun w => isQuizView (ChatWithFiles (ui w)))
    (runAny Sample.reader
       (Sample.streaming
          ++ [Submit;
              StreamFinish (Some [Sample.q1; Sample.q2; Sample.q3; Sample.q4])])
       initialWorld)
  = Some true
  /\ option_map (fun w => isQuizView (ChatWithFiles (ui w)))
       (runAny Sample.reader
          (Sample.streaming
             ++ [Submit;
                 StreamFinish (Some [Sample.q1; Sample.q2; Sample.q3; Sample.q4]);
                 StreamFinish None])
          initialWorld)
     = Some false.
Proof.
  split; reflexivity.
Qed.

(** * Further properties of the page *)

(** ** The user-agent test *)

Module RegExpFacts.
Import RegExp.

Lemma compile_literal (pattern : list N) :
  forall (x : MatchState) (k : Continuation),
    compile (literal pattern) x k
    = startsWith pattern (rest x)
      && k {| endIndex := length pattern + endIndex x;
              rest := skipn (length pattern) (rest x) |}.
Proof.
  induction pattern as [| c pt IH]; intros [e input] k; simpl.
  - reflexivity.
  - destruct input as [| ch tl]; [reflexivity |].
    rewrite IH. simpl. unfold advance. simpl.
    rewrite Nat.add_succ_r, andb_assoc. reflexivity.
Qed.

Lemma lookahead_literal (pattern : list N) (x : MatchState) :
  compile (literal pattern) x (fun _ => true) = startsWith pattern (rest x).
Proof.
  rewrite compile_literal. apply andb_true_r.
Qed.

Lemma compile_SKIP (x : MatchState) (k : Continuation) :
  compile SKIP x k
  = skippable (rest x)
    && match rest x with
       | _ :: tl => k (advance x tl)
       | [] => false
       end.
Proof.
  unfold SKIP, skippable.
  change (compile (Seq ?a Dot) x k)
    with (compile a x (fun y => compile Dot y k)).
  cbn [compile].
  rewrite !lookahead_literal.
  destruct (rest x) as [| ch tl].
  - rewrite !andb_false_r. reflexivity.
  - rewrite andb_assoc. reflexivity.
Qed.

(** With enough fuel the greedy repetition is the single pass. *)
Lemma repeat_SKIP (fuel : nat) :
  forall x : MatchState,
    (length (rest x) < fuel)%nat ->
    repeatMatcher (compile SKIP) fuel x
      (fun y => compile (literal (codeUnits "safari")) y (fun _ => true))
    = scanSafari (rest x).
Proof.
  induction fuel as [| fuel IH]; intros [e input] Hfuel; [inversion Hfuel |].
  cbn [repeatMatcher]. rewrite compile_SKIP, lookahead_literal.
  cbn [rest endIndex].
  destruct input as [| ch tl].
  - rewrite andb_false_r. reflexivity.
  - unfold advance. cbn [endIndex rest].
    replace (e <? S e)%nat with true by (symmetry; apply Nat.ltb_lt; lia).
    rewrite IH by (simpl in *; lia).
    cbn [rest].
    change (scanSafari (ch :: tl)) with
      (startsWith (codeUnits "safari") (ch :: tl)
       || skippable (ch :: tl) && scanSafari tl).
    apply orb_comm.
Qed.

(** [^] lets only the attempt at index 0 through. *)
Lemma matchFrom_SAFARI_PATTERN (userAgent : list N) (lastIndex : nat) :
  matchFrom SAFARI_PATTERN userAgent lastIndex
  = (lastIndex =? 0)%nat && scanSafari (skipn lastIndex userAgent).
Proof.
  unfold matchFrom, SAFARI_PATTERN.
  change (compile (Seq Bol ?r) ?x ?k)
    with (compile Bol x (fun y => compile r y k)).
  cbn [compile endIndex rest].
  rewrite repeat_SKIP by (cbn [rest]; lia).
  reflexivity.
Qed.

Lemma isSafari_scan (userAgent : list N) :
  isSafari userAgent = scanSafari userAgent.
Proof.
  unfold isSafari, test. cbn [seq existsb].
  rewrite matchFrom_SAFARI_PATTERN. cbn [Nat.eqb andb skipn].
  replace (existsb _ _) with false; [apply orb_false_r |].
  symmetry. apply not_true_is_false. intros Hex.
  apply existsb_exists in Hex. destruct Hex as [i [Hin Hmatch]].
  apply in_seq in Hin. rewrite matchFrom_SAFARI_PATTERN in Hmatch.
  destruct i as [| i]; [lia | discriminate Hmatch].
Qed.

Lemma skippable_iff (input : list N) :
  skippable input = true <->
  startsWith (codeUnits "chrome") input = false
  /\ startsWith (codeUnits "android") input = false
  /\ exists ch, nth_error input 0 = Some ch /\ isLineTerminator ch = false.
Proof.
  unfold skippable.
  rewrite andb_true_iff, negb_true_iff, orb_false_iff.
  destruct input as [| ch tl]; simpl.
  - split; [intros [_ H]; discriminate H
           | intros (_ & _ & ch & H & _); discriminate H].
  - rewrite negb_true_iff. split.
    + intros [[Hc Ha] Hl]. repeat split; try assumption. exists ch. auto.
    + intros (Hc & Ha & ch' & Hch & Hl). injection Hch as <-. auto.
Qed.

Lemma scanSafari_iff (input : list N) :
  scanSafari input = true <->
  exists i : nat,
    startsWith (codeUnits "safari") (skipn i input) = true
    /\ forall j : nat, (j < i)%nat -> skippable (skipn j input) = true.
Proof.
  induction input as [| ch tl IH].
  - split.
    + intros H. discriminate H.
    + intros [i [H _]]. rewrite skipn_nil in H. discriminate H.
  - change (scanSafari (ch :: tl)) with
      (startsWith (codeUnits "safari") (ch :: tl)
       || skippable (ch :: tl) && scanSafari tl).
    rewrite orb_true_iff, andb_true_iff, IH. split.
    + intros [Hhere | [Hskip [i [Hat Hbefore]]]].
      * exists 0%nat. split; [exact Hhere | intros j Hj; lia].
      * exists (S i). split; [exact Hat |].
        intros [| j] Hj; [exact Hskip | apply Hbefore; lia].
    + intros [[| i] [Hat Hbefore]].
      * left. exact Hat.
      * right. split; [apply (Hbefore 0%nat); lia |].
        exists i. split; [exact Hat |].
        intros j Hj. apply (Hbefore (S j)). lia.
Qed.

Lemma nth_error_skipn_0 {X : Type} (l : list X) (j : nat) :
  nth_error (skipn j l) 0 = nth_error l j.
Proof.
  revert l. induction j as [| j IH]; intros [| a l]; simpl;
    try reflexivity. apply IH.
Qed.

(** "safari" and the two excluded words cannot begin at the same place. *)
Lemma safari_excludes_others (input : list N) :
  startsWith (codeUnits "safari") input = true ->
  startsWith (codeUnits "chrome") input = false
  /\ startsWith (codeUnits "android") input = false.
Proof.
  destruct input as [| ch tl]; [discriminate |].
  change (startsWith (codeUnits "safari") (ch :: tl))
    with ((canonicalize ch =? 83)%N && startsWith (codeUnits "afari") tl).
  change (startsWith (codeUnits "chrome") (ch :: tl))
    with ((canonicalize ch =? 67)%N && startsWith (codeUnits "hrome") tl).
  change (startsWith (codeUnits "android") (ch :: tl))
    with ((canonicalize ch =? 65)%N && startsWith (codeUnits "ndroid") tl).
  intros H. apply andb_true_iff in H. destruct H as [H _].
  apply N.eqb_eq in H. rewrite H. split; reflexivity.
Qed.

End RegExpFacts.

(** The user agent is taken for Safari exactly when "safari" occurs in it
    (in any letter case) at a place before which neither "chrome" nor
    "android" begins and no line terminator stands. *)
Theorem isSafari_iff :
  forall userAgent : list N,
    isSafari userAgent = true <->
    exists i : nat,
      RegExp.startsWith (RegExp.codeUnits "safari") (skipn i userAgent) = true
      /\ forall j : nat,
           (j < i)%nat ->
           RegExp.startsWith (RegExp.codeUnits "chrome") (skipn j userAgent)
             = false
           /\ RegExp.startsWith (RegExp.codeUnits "android") (skipn j userAgent)
                = false
           /\ exists ch, nth_error userAgent j = Some ch
                         /\ RegExp.isLineTerminator ch = false.
Proof.
  intros userAgent.
  rewrite RegExpFacts.isSafari_scan, RegExpFacts.scanSafari_iff.
  split; intros [i [Hat Hbefore]]; exists i; (split; [exact Hat |]);
    intros j Hj; specialize (Hbefore j Hj).
  - apply RegExpFacts.skippable_iff in Hbefore.
    rewrite RegExpFacts.nth_error_skipn_0 in Hbefore. exact Hbefore.
  - apply RegExpFacts.skippable_iff.
    rewrite RegExpFacts.nth_error_skipn_0. exact Hbefore.
Qed.

(** The user agent of Safari on a Mac is one such string. *)
Lemma isSafari_iff_witness :
  exists i : nat,
    RegExp.startsWith (RegExp.codeUnits "safari") (skipn i UserAgents.safari)
    = true.
Proof.
  destruct (proj1 (isSafari_iff UserAgents.safari) eq_refl) as [i [Hat _]].
  exists i. exact Hat.
Defined.

Lemma forallb_seq_below (p : nat -> bool) (n : nat) :
  forallb p (seq 0 n) = true -> forall i : nat, (i < n)%nat -> p i = true.
Proof.
  intros Hall i Hi. rewrite forallb_forall in Hall.
  apply Hall. apply in_seq. lia.
Qed.

(** A user agent in which "chrome" or "android" begins at some place with no
    "safari" before it is not taken for Safari, so there the guard of
    [handleFileChange] never fires: a drop and the picker both stage the
    valid files of the selection, also while the dragging flag is set, and
    the only notification they can raise is the one about invalid files. *)
Theorem drop_outside_safari :
  forall (userAgent : list N) (j : nat) (selectedFiles : list File.t)
         (st : State),
    RegExp.startsWith (RegExp.codeUnits "chrome") (skipn j userAgent)
    || RegExp.startsWith (RegExp.codeUnits "android") (skipn j userAgent)
    = true ->
    (forall i : nat,
       (i < j)%nat ->
       RegExp.startsWith (RegExp.codeUnits "safari") (skipn i userAgent)
       = false) ->
    isSafari userAgent = false
    /\ files (onDropIn userAgent selectedFiles st)
       = filter isValidFile selectedFiles
    /\ files (handleFileChangeIn userAgent selectedFiles st)
       = filter isValidFile selectedFiles
    /\ toasts (onDropIn userAgent selectedFiles st)
       = (if forallb isValidFile selectedFiles
          then toasts st
          else INVALID_FILE_MESSAGE :: toasts st).
Proof.
  intros userAgent j selectedFiles st Hother Hnone.
  assert (Hnot : isSafari userAgent = false).
  { apply not_true_is_false. intros Hsafari.
    rewrite RegExpFacts.isSafari_scan in Hsafari.
    apply RegExpFacts.scanSafari_iff in Hsafari.
    destruct Hsafari as [i [Hat Hbefore]].
    destruct (Nat.lt_trichotomy i j) as [Hlt | [Heq | Hgt]].
    - rewrite (Hnone i Hlt) in Hat. discriminate Hat.
    - subst i.
      destruct (RegExpFacts.safari_excludes_others _ Hat) as [Hc Ha].
      rewrite Hc, Ha in Hother. discriminate Hother.
    - destruct (proj1 (RegExpFacts.skippable_iff _) (Hbefore j Hgt))
        as (Hc & Ha & _).
      rewrite Hc, Ha in Hother. discriminate Hother. }
  split; [exact Hnot |].
  unfold onDropIn, onDrop, handleFileChangeIn. rewrite Hnot.
  rewrite (handleFileChange_filtering false selectedFiles st eq_refl).
  split; [reflexivity | split; [reflexivity |]].
  destruct (forallb isValidFile selectedFiles); reflexivity.
Qed.

(** Chrome on Windows: "Chrome" begins at index 81, before any "Safari";
    a PDF dropped there is staged. *)
Lemma drop_outside_safari_witness :
  isSafari UserAgents.chrome = false
  /\ files (onDropIn UserAgents.chrome [Sample.pdf] (onDragOver initialState))
     = [Sample.pdf].
Proof.
  destruct (drop_outside_safari UserAgents.chrome 81 [Sample.pdf]
              (onDragOver initialState))
    as (Hnot & Hdrop & _).
  - reflexivity.
  - intros i Hi. apply negb_true_iff.
    apply (forallb_seq_below
             (fun i => negb (RegExp.startsWith (RegExp.codeUnits "safari")
                               (skipn i UserAgents.chrome)))
             81); [vm_compute; reflexivity | exact Hi].
  - split; [exact Hnot | rewrite Hdrop; reflexivity].
Defined.

(** In Safari a drop made while the dragging flag is set stages nothing,
    whatever was dropped: the staged files stay as they were and the Safari
    notification is raised.  The drop clears the flag, so the same selection
    made through the picker right afterwards is filtered and staged. *)
Theorem safari_drop_refused_then_picker :
  forall (userAgent : list N) (selectedFiles : list File.t) (st : State),
    isSafari userAgent = true ->
    isDragging st = true ->
    let st1 := onDropIn userAgent selectedFiles st in
    files st1 = files st
    /\ toasts st1 = SAFARI_MESSAGE :: toasts st
    /\ isDragging st1 = false
    /\ files (handleFileChangeIn userAgent selectedFiles st1)
       = filter isValidFile selectedFiles.
Proof.
  intros userAgent selectedFiles st Hsafari Hdrag. cbv zeta.
  unfold onDropIn, onDrop, handleFileChangeIn. rewrite Hsafari.
  rewrite (handleFileChange_safari_drag selectedFiles st Hdrag).
  split; [reflexivity | split; [reflexivity | split; [reflexivity |]]].
  rewrite handleFileChange_filtering by reflexivity. reflexivity.
Qed.

(** Safari on a Mac, a PDF dragged over the zone and dropped. *)
Lemma safari_drop_refused_then_picker_witness :
  let st1 := onDropIn UserAgents.safari [Sample.pdf] (onDragOver initialState) in
  files st1 = []
  /\ toasts st1 = [SAFARI_MESSAGE]
  /\ files (handleFileChangeIn UserAgents.safari [Sample.pdf] st1)
     = [Sample.pdf].
Proof.
  cbv zeta.
  destruct (safari_drop_refused_then_picker UserAgents.safari [Sample.pdf]
              (onDragOver initialState) eq_refl eq_refl)
    as (Hfiles & Htoasts & _ & Hpicker).
  split; [exact Hfiles | split; [exact Htoasts | exact Hpicker]].
Defined.

(** ** Encoding and submission *)

Lemma encodeAll_rejects (reader : File.t -> option string) (fs : list File.t) :
  encodeAll reader fs = None <-> exists f, In f fs /\ reader f = None.
Proof.
  induction fs as [| f rest IH]; simpl.
  - split; [discriminate | intros [f [[] _]]].
  - unfold encodeFile, encodeFileAsBase64.
    destruct (reader f) as [d |] eqn:Hread.
    + destruct (encodeAll reader rest) as [es |].
      * split; [discriminate |].
        intros [g [[<- | Hin] Hg]]; [congruence |].
        assert (Hnone : Some es = None) by (apply IH; exists g; auto).
        discriminate Hnone.
      * split; [| reflexivity]. intros _.
        destruct (proj1 IH eq_refl) as [g [Hin Hg]]. exists g. auto.
    + split; [| reflexivity]. intros _. exists f. auto.
Qed.

Lemma encodeAll_entries (reader : File.t -> option string) (fs : list File.t) :
  forall payload : list EncodedFile.t,
    encodeAll reader fs = Some payload ->
    Forall2
      (fun f e =>
         EncodedFile.name e = File.name f
         /\ EncodedFile.type e = File.type f
         /\ reader f = Some (EncodedFile.data e))
      fs payload.
Proof.
  induction fs as [| f rest IH]; intros payload Henc; simpl in Henc.
  - injection Henc as <-. constructor.
  - unfold encodeFile, encodeFileAsBase64 in Henc.
    destruct (reader f) as [d |] eqn:Hread; [| discriminate Henc].
    destruct (encodeAll reader rest) as [es |]; [| discriminate Henc].
    injection Henc as <-. constructor.
    + simpl. auto.
    + apply IH. reflexivity.
Qed.

(** A submission is all or nothing.  When the read of some staged file fails
    nothing is sent and the page state is not touched; otherwise [submit] is
    called once with one entry per staged file, in order, carrying the
    file's name, its type and the data that was read. *)
Theorem handleSubmitWithFiles_all_or_nothing :
  forall (reader : File.t -> option string) (st : State),
    match snd (handleSubmitWithFiles reader st) with
    | EncodeRejected =>
        (exists f, In f (files st) /\ reader f = None)
        /\ fst (handleSubmitWithFiles reader st) = st
    | TitleRequested payload _ | TypeErrorThrown payload =>
        (forall f, In f (files st) -> reader f <> None)
        /\ Forall2
             (fun f e =>
                EncodedFile.name e = File.name f
                /\ EncodedFile.type e = File.type f
                /\ reader f = Some (EncodedFile.data e))
             (files st) payload
        /\ fst (handleSubmitWithFiles reader st) = hookSubmit st
    end.
Proof.
  intros reader st. unfold handleSubmitWithFiles.
  destruct (encodeAll reader (files st)) as [payload |] eqn:Henc.
  - assert (Hreads : forall f, In f (files st) -> reader f <> None).
    { intros f Hin Hnone.
      assert (Hrej : encodeAll reader (files st) = None)
        by (apply encodeAll_rejects; exists f; auto).
      congruence. }
    pose proof (encodeAll_entries _ _ _ Henc) as Hentries.
    destruct (nth_error payload 0); simpl; auto.
  - simpl. split; [| reflexivity].
    apply encodeAll_rejects. exact Henc.
Qed.

(** ** The staged files *)

Lemma handleFileChange_files_valid (guard : bool) (selectedFiles : list File.t)
    (st : State) :
  Forall (fun f => isValidFile f = true) (files st) ->
  Forall (fun f => isValidFile f = true)
    (files (handleFileChange guard selectedFiles st)).
Proof.
  intros Hvalid.
  destruct (guard && isDragging st) eqn:Hguard.
  - unfold handleFileChange. rewrite Hguard. exact Hvalid.
  - rewrite handleFileChange_filtering by exact Hguard. simpl.
    apply Forall_forall. intros f Hin. apply filter_In in Hin. tauto.
Qed.

Lemma handleSubmitWithFiles_files (reader : File.t -> option string)
    (st : State) :
  files (fst (handleSubmitWithFiles reader st)) = files st.
Proof.
  unfold handleSubmitWithFiles.
  destruct (encodeAll reader (files st)) as [payload |]; [| reflexivity].
  destruct (nth_error payload 0); reflexivity.
Qed.

Lemma step_ui_Submit (reader : File.t -> option string) (w : World) :
  ui (step reader Submit w) = fst (handleSubmitWithFiles reader (ui w)).
Proof.
  unfold step.
  destruct (handleSubmitWithFiles reader (ui w)) as [st []]; reflexivity.
Qed.

Lemma step_files_valid (reader : File.t -> option string) (e : Event)
    (w : World) :
  Forall (fun f => isValidFile f = true) (files (ui w)) ->
  Forall (fun f => isValidFile f = true) (files (ui (step reader e w))).
Proof.
  intros Hvalid.
  destruct e; try exact Hvalid; try (simpl; constructor).
  - (* Drop *) simpl. unfold onDrop. simpl.
    apply handleFileChange_files_valid. exact Hvalid.
  - (* Pick *) simpl. apply handleFileChange_files_valid. exact Hvalid.
  - (* Submit *)
    rewrite step_ui_Submit, handleSubmitWithFiles_files. exact Hvalid.
Qed.

Lemma runAny_invariant (reader : File.t -> option string)
    (P : World -> Prop) :
  (forall e w, P w -> P (step reader e w)) ->
  forall (es : list Event) (w w' : World),
    P w -> runAny reader es w = Some w' -> P w'.
Proof.
  intros Hstep es.
  induction es as [| e rest IH]; intros w w' Hw Hrun; simpl in Hrun.
  - injection Hrun as <-. exact Hw.
  - destruct (enabled e w); [| discriminate Hrun].
    apply (IH (step reader e w) w'); [apply Hstep; exact Hw | exact Hrun].
Qed.

(** A serialized run is in particular a run: what holds of every [runAny]
    holds of every serialized session. *)
Lemma run_runAny (reader : File.t -> option string) (es : list Event) :
  forall w w' : World,
    run reader es w = Some w' -> runAny reader es w = Some w'.
Proof.
  induction es as [| e rest IH]; intros w w' Hrun; simpl in *.
  - exact Hrun.
  - destruct (enabled e w); [| discriminate Hrun].
    destruct (serialized e w); [| discriminate Hrun].
    apply IH. exact Hrun.
Qed.

Lemma runAny_files_valid (reader : File.t -> option string)
    (es : list Event) (w : World) :
  runAny reader es initialWorld = Some w ->
  Forall (fun f => isValidFile f = true) (files (ui w)).
Proof.
  intros Hrun.
  apply (runAny_invariant reader
           (fun w => Forall (fun f => isValidFile f = true) (files (ui w)))
           (step_files_valid reader) es initialWorld w);
    [constructor | exact Hrun].
Qed.

(** In every state a session can reach, serialized or not, each staged file
    has type application/pdf and at most 5 * 1024 * 1024 bytes. *)
Theorem staged_files_always_valid :
  forall (reader : File.t -> option string) (es : list Event) (w : World),
    runAny reader es initialWorld = Some w ->
    Forall
      (fun f =>
         File.type f = "application/pdf"
         /\ (File.size f <= 5 * 1024 * 1024)%Z)
      (files (ui w)).
Proof.
  intros reader es w Hrun.
  pose proof (runAny_files_valid reader es w Hrun) as Hvalid.
  apply Forall_forall. intros f Hin.
  apply isValidFile_iff. rewrite Forall_forall in Hvalid. auto.
Qed.

(** A selection of three files of which one is valid, in a running session. *)
Lemma staged_files_always_valid_witness :
  Forall
    (fun f =>
       File.type f = "application/pdf" /\ (File.size f <= 5 * 1024 * 1024)%Z)
    (files (ui (Sample.worldAfter
                  [Pick false [Sample.png; Sample.pdf; Sample.bigPdf]; Submit;
                   StreamPartial [Sample.q1]])))
  /\ files (ui (Sample.worldAfter
                  [Pick false [Sample.png; Sample.pdf; Sample.bigPdf]; Submit;
                   StreamPartial [Sample.q1]]))
     = [Sample.pdf].
Proof.
  split; [| reflexivity].
  apply (staged_files_always_valid Sample.reader
           [Pick false [Sample.png; Sample.pdf; Sample.bigPdf]; Submit;
            StreamPartial [Sample.q1]]).
  reflexivity.
Defined.

(** Whatever a session did before, the payload that a submission passes to
    [submit] holds entries of type application/pdf only. *)
Theorem submitted_payload_is_pdf :
  forall (reader : File.t -> option string) (es : list Event) (w : World),
    runAny reader es initialWorld = Some w ->
    match snd (handleSubmitWithFiles reader (ui w)) with
    | EncodeRejected => True
    | TitleRequested payload _ | TypeErrorThrown payload =>
        Forall (fun e => EncodedFile.type e = "application/pdf") payload
        /\ length payload = length (files (ui w))
    end.
Proof.
  intros reader es w Hrun.
  pose proof (runAny_files_valid reader es w Hrun) as Hvalid.
  assert (Hpdf : forall payload,
            encodeAll reader (files (ui w)) = Some payload ->
            Forall (fun e => EncodedFile.type e = "application/pdf") payload
            /\ length payload = length (files (ui w))).
  { intros payload Henc.
    pose proof (encodeAll_entries _ _ _ Henc) as Hentries.
    split; [| symmetry; exact (Forall2_length Hentries)].
    revert Hvalid. generalize (files (ui w)) payload Hentries.
    induction 1 as [| f e fs payload' (_ & Htype & _) _ IH];
      intros Hvalid; constructor.
    - inversion Hvalid as [| f' fs' Hf Hrest]; subst.
      apply isValidFile_iff in Hf. destruct Hf as [Hf _]. congruence.
    - apply IH. inversion Hvalid; assumption. }
  unfold handleSubmitWithFiles.
  destruct (encodeAll reader (files (ui w))) as [payload |]; [| exact I].
  destruct (nth_error payload 0); simpl; apply Hpdf; reflexivity.
Qed.

(** The payload of the sample session holds the one PDF. *)
Lemma submitted_payload_is_pdf_witness :
  exists payload n,
    snd (handleSubmitWithFiles Sample.reader
           (ui (Sample.worldAfter
                  [Pick false [Sample.png; Sample.pdf; Sample.bigPdf]])))
    = TitleRequested payload n
    /\ Forall (fun e => EncodedFile.type e = "application/pdf") payload.
Proof.
  pose proof (submitted_payload_is_pdf Sample.reader
                [Pick false [Sample.png; Sample.pdf; Sample.bigPdf]]
                (Sample.worldAfter
                   [Pick false [Sample.png; Sample.pdf; Sample.bigPdf]])
                eq_refl) as H.
  destruct (snd (handleSubmitWithFiles Sample.reader
                   (ui (Sample.worldAfter
                          [Pick false [Sample.png; Sample.pdf; Sample.bigPdf]]))))
    as [| payload n | payload] eqn:Hout.
  - discriminate Hout.
  - exists payload, n. split; [reflexivity | apply H].
  - discriminate Hout.
Defined.

(** ** The stored title *)

Lemma step_title (reader : File.t -> option string) (e : Event) (w : World) :
  title (ui (step reader e w))
  = match e with
    | TitleResolved generatedTitle => Some generatedTitle
    | _ => title (ui w)
    end.
Proof.
  destruct e as [| | guard sel | guard sel | | p | object | | g |];
    try reflexivity.
  - (* Drop *) simpl. unfold handleFileChange.
    destruct (guard && isDragging (ui w)); [reflexivity |].
    destruct (negb (length (filter isValidFile sel) =? length sel)%nat);
      reflexivity.
  - (* Pick *) simpl. unfold handleFileChange.
    destruct (guard && isDragging (ui w)); [reflexivity |].
    destruct (negb (length (filter isValidFile sel) =? length sel)%nat);
      reflexivity.
  - (* Submit *) rewrite step_ui_Submit. unfold handleSubmitWithFiles.
    destruct (encodeAll reader (files (ui w))) as [payload |]; [| reflexivity].
    destruct (nth_error payload 0); reflexivity.
Qed.

(** The stored title is always the one of the last title request that
    resolved: no other event changes it.  In particular neither the clear
    action, nor a new submission, nor a failed stream resets a title once it
    is stored. *)
Theorem title_is_last_resolved :
  forall (reader : File.t -> option string) (es : list Event) (w w' : World),
    runAny reader es w = Some w' ->
    title (ui w') = lastResolvedTitle es (title (ui w))
    /\ (title (ui w) <> None -> title (ui w') <> None).
Proof.
  intros reader es.
  induction es as [| e rest IH]; intros w w' Hrun; simpl in Hrun.
  - injection Hrun as <-. split; [reflexivity | auto].
  - destruct (enabled e w); [| discriminate Hrun].
    destruct (IH (step reader e w) w' Hrun) as [Hlast Hkept].
    rewrite step_title in Hlast, Hkept.
    split.
    + rewrite Hlast. reflexivity.
    + intros Hset. apply Hkept. destruct e; try exact Hset. discriminate.
Qed.

(** A second quiz made after a clear shows the title of the first one for
    as long as its own title request has not resolved. *)
Lemma title_is_last_resolved_witness :
  ChatWithFiles
    (Sample.stateAfter
       (Sample.completed
          ++ [TitleResolved "Lecture notes"; Clear; Pick false [Sample.pdf];
              Submit;
              StreamFinish
                (Some [Sample.q4; Sample.q3; Sample.q2; Sample.q1])]))
  = QuizView "Lecture notes" [Sample.q4; Sample.q3; Sample.q2; Sample.q1].
Proof.
  pose proof (title_is_last_resolved Sample.reader
                (Sample.completed
                   ++ [TitleResolved "Lecture notes"; Clear;
                       Pick false [Sample.pdf]; Submit;
                       StreamFinish
                         (Some [Sample.q4; Sample.q3; Sample.q2; Sample.q1])])
                initialWorld
                (Sample.worldAfter
                   (Sample.completed
                      ++ [TitleResolved "Lecture notes"; Clear;
                          Pick false [Sample.pdf]; Submit;
                          StreamFinish
                            (Some [Sample.q4; Sample.q3; Sample.q2; Sample.q1])]))
                eq_refl) as [Hlast _].
  rewrite ChatWithFiles_quiz by reflexivity.
  unfold Sample.stateAfter. rewrite Hlast. reflexivity.
Defined.

(** ** Entering the quiz *)

Lemma step_questions (reader : File.t -> option string) (e : Event)
    (w : World) :
  questions (ui (step reader e w))
  = match e with
    | StreamFinish object =>
        filter isValidQuestion (JS.nullish object [])
    | Clear => []
    | _ => questions (ui w)
    end.
Proof.
  destruct e; try reflexivity.
  - (* Drop *) simpl. apply handleFileChange_questions.
  - (* Pick *) simpl. apply handleFileChange_questions.
  - (* Submit *) rewrite step_ui_Submit. apply handleSubmitWithFiles_questions.
  - (* StreamFinish *) simpl. destruct object; reflexivity.
Qed.

(** The page passes from the upload view to the quiz view only at the end of
    a stream, and only when exactly four elements of its final object pass
    the full-field check; the quiz then holds those four, in stream order. *)
Theorem quiz_entered_only_by_finish :
  forall (reader : File.t -> option string) (e : Event) (w : World),
    isQuizView (ChatWithFiles (ui w)) = false ->
    isQuizView (ChatWithFiles (ui (step reader e w))) = true ->
    exists object : list Slot,
      e = StreamFinish (Some object)
      /\ length (filter isValidQuestion object) = 4%nat
      /\ ChatWithFiles (ui (step reader e w))
         = QuizView (JS.nullish (title (ui w)) "Quiz")
             (filter isValidQuestion object).
Proof.
  intros reader e w Hupload Hquiz.
  apply isQuizView_false_iff in Hupload.
  apply isQuizView_iff in Hquiz.
  pose proof (step_questions reader e w) as Hq.
  pose proof (step_title reader e w) as Ht.
  destruct e as [| | s d | s d | | p | [object |] | | g |];
    try (rewrite Hq in Hquiz; contradiction);
    try (rewrite Hq in Hquiz; discriminate Hquiz).
  exists object. split; [reflexivity |].
  rewrite Hq in Hquiz. simpl in Hquiz.
  split; [exact Hquiz |].
  rewrite ChatWithFiles_quiz by (rewrite Hq; exact Hquiz).
  rewrite Hq, Ht. reflexivity.
Qed.

(** The end of the sample stream. *)
Lemma quiz_entered_only_by_finish_witness :
  exists object : list Slot,
    ChatWithFiles
      (ui (step Sample.reader
             (StreamFinish (Some [Sample.q1; Sample.q2; Sample.q3; Sample.q4]))
             (Sample.worldAfter Sample.twoDrafts)))
    = QuizView "Quiz" (filter isValidQuestion object).
Proof.
  destruct (quiz_entered_only_by_finish Sample.reader
              (StreamFinish (Some [Sample.q1; Sample.q2; Sample.q3; Sample.q4]))
              (Sample.worldAfter Sample.twoDrafts) eq_refl eq_refl)
    as (object & _ & _ & Hview).
  exists object. exact Hview.
Defined.

(** A final object of exactly four elements that all pass the check becomes
    the quiz as it is: the same four elements in the order received, under
    the stored title or "Quiz". *)
Theorem four_valid_drafts_make_the_quiz :
  forall (elements : list Slot) (st : State),
    length elements = 4%nat ->
    forallb isValidQuestion elements = true ->
    questions (onFinish (Some elements) st) = elements
    /\ ChatWithFiles (onFinish (Some elements) st)
       = QuizView (JS.nullish (title st) "Quiz") elements.
Proof.
  intros elements st Hfour Hall.
  assert (Hq : questions (onFinish (Some elements) st) = elements).
  { rewrite onFinish_questions. apply forallb_filter_id. exact Hall. }
  split; [exact Hq |].
  rewrite ChatWithFiles_quiz by (rewrite Hq; exact Hfour).
  rewrite Hq. reflexivity.
Qed.

Lemma four_valid_drafts_make_the_quiz_witness :
  ChatWithFiles
    (onFinish (Some [Sample.q1; Sample.q2; Sample.q3; Sample.q4])
       (setTitle (Some "Lecture notes") initialState))
  = QuizView "Lecture notes" [Sample.q1; Sample.q2; Sample.q3; Sample.q4].
Proof.
  apply (four_valid_drafts_make_the_quiz
           [Sample.q1; Sample.q2; Sample.q3; Sample.q4]
           (setTitle (Some "Lecture notes") initialState));
    reflexivity.
Defined.

(** The end of a stream that does not bring exactly four valid questions
    (also an object that failed validation) is silent: no notification is
    raised, the staged files are kept, and the page shows the upload form
    again with the progress footer gone. *)
Theorem short_finish_is_silent :
  forall (reader : File.t -> option string) (object : option (list Slot))
         (w : World),
    length (filter isValidQuestion (JS.nullish object [])) <> 4%nat ->
    let w' := step reader (StreamFinish object) w in
    toasts (ui w') = toasts (ui w)
    /\ files (ui w') = files (ui w)
    /\ ChatWithFiles (ui w')
       = UploadView (isDragging (ui w)) (dropZoneText (files (ui w)))
           (submitDisabled (ui w)) "Generate Quiz" None.
Proof.
  intros reader object w Hshort. cbv zeta.
  split; [reflexivity | split; [reflexivity |]].
  rewrite ChatWithFiles_upload by (rewrite step_questions; exact Hshort).
  reflexivity.
Qed.

(** A stream that ends with three valid questions and one without text. *)
Lemma short_finish_is_silent_witness :
  ChatWithFiles
    (ui (step Sample.reader
           (StreamFinish
              (Some [Sample.q1; Sample.q2; Sample.q3; Sample.qEmpty]))
           (Sample.worldAfter Sample.twoDrafts)))
  = UploadView false "notes.pdf" false "Generate Quiz" None.
Proof.
  destruct (short_finish_is_silent Sample.reader
              (Some [Sample.q1; Sample.q2; Sample.q3; Sample.qEmpty])
              (Sample.worldAfter Sample.twoDrafts))
    as (_ & _ & Hview).
  - simpl. discriminate.
  - exact Hview.
Defined.

(** ** The progress footer *)

Lemma Math_round_integer (z : Z) (x : Q) :
  x == inject_Z z -> JS.Math_round x = z.
Proof.
  intros Hx. unfold JS.Math_round. rewrite Hx.
  unfold Qfloor, Qplus, inject_Z. simpl Qnum. simpl Qden.
  replace (z * 2 + 1 * 1)%Z with (1 + z * 2)%Z by ring.
  rewrite Z.div_add by discriminate. reflexivity.
Qed.

(** The percentage written in the footer is exactly 25 times the number of
    elements received, with nothing lost to rounding; it is not capped, and
    exceeds 100 as soon as the array has more than four elements. *)
Theorem percent_text_is_exact :
  forall partial : list Slot,
    JS.Math_round (progress (Some partial))
    = (25 * Z.of_nat (length partial))%Z
    /\ LoadingProgress true (progress (Some partial)) (Some partial)
       = Some {| percentText :=
                   (JS.string_of_Z (25 * Z.of_nat (length partial)) ++ "%")%string;
                 barValue := progress (Some partial);
                 statusText := statusLine (Some partial) |}
    /\ (100 < progress (Some partial) <-> (4 < length partial)%nat).
Proof.
  intros partial.
  assert (Hround : JS.Math_round (progress (Some partial))
                   = (25 * Z.of_nat (length partial))%Z)
    by (apply Math_round_integer, progress_defined).
  split; [exact Hround |].
  split.
  - unfold LoadingProgress. rewrite Hround. reflexivity.
  - rewrite progress_defined. change 100 with (inject_Z 100).
    rewrite <- Zlt_Qlt. lia.
Qed.

(** While all four drafts are there and the stream has not ended yet, the
    footer reads 100% and "Generating question 5 of 4". *)
Theorem status_line_after_fourth_draft :
  forall partial : list Slot,
    length partial = 4%nat ->
    forallb slotPresent partial = true ->
    exists value : Q,
      value == 100
      /\ LoadingProgress true (progress (Some partial)) (Some partial)
         = Some {| percentText := "100%";
                   barValue := value;
                   statusText := "Generating question 5 of 4" |}.
Proof.
  intros partial Hfour Hall.
  exists (progress (Some partial)). split.
  - rewrite progress_defined, Hfour. reflexivity.
  - unfold LoadingProgress.
    rewrite (Math_round_integer (25 * Z.of_nat (length partial)))
      by apply progress_defined.
    unfold statusLine, validQuestions. simpl option_map.
    rewrite (forallb_filter_id slotPresent partial Hall), Hfour.
    reflexivity.
Qed.

Lemma status_line_after_fourth_draft_witness :
  exists value : Q,
    LoadingProgress true
      (progress (Some [Sample.q1; Sample.q2; Sample.q3; Sample.q4]))
      (Some [Sample.q1; Sample.q2; Sample.q3; Sample.q4])
    = Some {| percentText := "100%";
              barValue := value;
              statusText := "Generating question 5 of 4" |}.
Proof.
  destruct (status_line_after_fourth_draft
              [Sample.q1; Sample.q2; Sample.q3; Sample.q4] eq_refl eq_refl)
    as [value [_ Hfooter]].
  exists value. exact Hfooter.
Defined.

(** ** The file named on the page *)

Lemma filter_head_find {X : Type} (p : X -> bool) (l : list X) :
  match find p l with
  | Some x => exists rest, filter p l = x :: rest
  | None => filter p l = []
  end.
Proof.
  induction l as [| a l IH]; simpl; [reflexivity |].
  destruct (p a).
  - exists (filter p l). reflexivity.
  - exact IH.
Qed.

(** After a selection outside the Safari guard, made by the picker or by a
    drop, in any browser, the drop zone names the first selected file that
    is valid, and the title of a submission made then is requested for that
    same file; with no valid file in the selection the zone shows its prompt
    and the submit button is disabled. *)
Theorem named_file_is_first_valid :
  forall (reader : File.t -> option string) (guard : bool)
         (selectedFiles : list File.t) (st st' : State),
    guard && isDragging st = false ->
    st' = handleFileChange guard selectedFiles st
    \/ st' = onDrop guard selectedFiles st ->
    match find isValidFile selectedFiles with
    | Some f =>
        dropZoneText (files st') = File.name f
        /\ submitDisabled st' = false
        /\ (forall payload fileName,
              snd (handleSubmitWithFiles reader st')
              = TitleRequested payload fileName ->
              fileName = File.name f)
    | None =>
        dropZoneText (files st') = "Drop your PDF here or click to browse."
        /\ submitDisabled st' = true
    end.
Proof.
  intros reader guard selectedFiles st st' Hguard Hst'.
  assert (Hfiles : files st' = filter isValidFile selectedFiles).
  { destruct Hst' as [-> | ->]; unfold onDrop;
      rewrite handleFileChange_filtering by exact Hguard; reflexivity. }
  pose proof (filter_head_find isValidFile selectedFiles) as Hhead.
  destruct (find isValidFile selectedFiles) as [f |].
  - destruct Hhead as [rest Hhead].
    unfold submitDisabled. rewrite Hfiles, Hhead.
    split; [reflexivity | split; [reflexivity |]].
    intros payload fileName Hout.
    unfold handleSubmitWithFiles in Hout. rewrite Hfiles, Hhead in Hout.
    destruct (encodeAll reader (f :: rest)) as [encodedFiles |] eqn:Henc;
      [| discriminate Hout].
    pose proof (encodeAll_shape _ _ _ Henc) as Hnames.
    destruct encodedFiles as [| e es]; [discriminate Hnames |].
    simpl in Hout, Hnames. injection Hnames as Hname _.
    injection Hout as _ <-. exact Hname.
  - unfold submitDisabled. rewrite Hfiles, Hhead. split; reflexivity.
Qed.

(** In Safari, with the dragging flag down, a PNG, a valid PDF and an
    oversized PDF are picked: the zone names the valid PDF. *)
Lemma named_file_is_first_valid_witness :
  dropZoneText
    (files (handleFileChange true [Sample.png; Sample.pdf; Sample.bigPdf]
              initialState))
  = "notes.pdf".
Proof.
  pose proof (named_file_is_first_valid Sample.reader true
                [Sample.png; Sample.pdf; Sample.bigPdf] initialState
                (handleFileChange true [Sample.png; Sample.pdf; Sample.bigPdf]
                   initialState)
                eq_refl (or_introl eq_refl)) as H.
  simpl find in H.
  destruct H as (Hzone & _). exact Hzone.
Defined.

(** ** What the quiz receives *)

Lemma step_questions_valid (reader : File.t -> option string) (e : Event)
    (w : World) :
  Forall (fun q => isValidQuestion q = true) (questions (ui w)) ->
  Forall (fun q => isValidQuestion q = true) (questions (ui (step reader e w))).
Proof.
  intros Hvalid. rewrite step_questions.
  destruct e; try exact Hvalid.
  - apply Forall_forall. intros q Hin. apply filter_In in Hin. tauto.
  - constructor.
Qed.

(** Whenever a session, serialized or not, shows the quiz, the quiz holds
    exactly four questions and each of them has its question text, its
    options and its answer, the text not empty. *)
Theorem quiz_questions_are_complete :
  forall (reader : File.t -> option string) (es : list Event) (w : World)
         (shownTitle : string) (shownQuestions : list Slot),
    runAny reader es initialWorld = Some w ->
    ChatWithFiles (ui w) = QuizView shownTitle shownQuestions ->
    length shownQuestions = 4%nat
    /\ Forall
         (fun q =>
            exists text opts a,
              q = Some {| question := Some text;
                          options := Some opts;
                          answer := Some a |}
              /\ text <> EmptyString)
         shownQuestions.
Proof.
  intros reader es w shownTitle shownQuestions Hrun Hview.
  assert (Hvalid : Forall (fun q => isValidQuestion q = true)
                     (questions (ui w))).
  { apply (runAny_invariant reader
             (fun w => Forall (fun q => isValidQuestion q = true)
                         (questions (ui w)))
             (step_questions_valid reader) es initialWorld w);
      [constructor | exact Hrun]. }
  unfold ChatWithFiles in Hview.
  destruct (length (questions (ui w)) =? 4)%nat eqn:Hlen;
    [| discriminate Hview].
  injection Hview as _ <-.
  split; [apply Nat.eqb_eq; exact Hlen |].
  apply Forall_forall. intros q Hin.
  apply isValidQuestion_iff. rewrite Forall_forall in Hvalid. auto.
Qed.

Lemma quiz_questions_are_complete_witness :
  length [Sample.q1; Sample.q2; Sample.q3; Sample.q4] = 4%nat
  /\ Forall
       (fun q =>
          exists text opts a,
            q = Some {| question := Some text;
                        options := Some opts;
                        answer := Some a |}
            /\ text <> EmptyString)
       [Sample.q1; Sample.q2; Sample.q3; Sample.q4].
Proof.
  apply (quiz_questions_are_complete Sample.reader Sample.completed
           (Sample.worldAfter Sample.completed) "Quiz");
    reflexivity.
Defined.

(** ** Loading in a serialized session *)

(** In a serialized session at most one request is in flight, and the page
    tells so faithfully: the upload view carries the progress footer and the
    label "Generating Quiz..." exactly while a request is in flight, and the
    quiz view is only shown when none is. *)
Theorem loading_tracks_request :
  forall (reader : File.t -> option string) (es : list Event) (w : World),
    run reader es initialWorld = Some w ->
    match ChatWithFiles (ui w) with
    | QuizView _ _ => inflight w = 0%nat
    | UploadView _ _ _ label footer =>
        (inflight w = 0%nat /\ label = "Generate Quiz" /\ footer = None)
        \/ (inflight w = 1%nat
            /\ label = "Generating Quiz..."
            /\ footer
               = Some {| percentText :=
                           (JS.string_of_Z
                              (JS.Math_round (progress (partialQuestions (ui w))))
                              ++ "%")%string;
                         barValue := progress (partialQuestions (ui w));
                         statusText := statusLine (partialQuestions (ui w)) |})
    end.
Proof.
  intros reader es w Hrun.
  destruct (sessionInvariant_reachable reader es w Hrun)
    as (Hone & Hload & Hflight).
  unfold ChatWithFiles.
  destruct (length (questions (ui w)) =? 4)%nat eqn:Hlen.
  - apply Nat.eqb_eq in Hlen.
    destruct (Nat.eq_dec (inflight w) 0) as [Hz | Hnz]; [exact Hz |].
    exfalso. exact (Hflight Hnz Hlen).
  - rewrite Hload.
    destruct (inflight w) as [| [| n]]; simpl; [left | right | lia]; auto.
Qed.

(** The sample session while its second draft has arrived. *)
Lemma loading_tracks_request_witness :
  ChatWithFiles (ui (Sample.worldAfter Sample.twoDrafts))
  = UploadView false "notes.pdf" false "Generating Quiz..."
      (Some {| percentText := "50%";
               barValue := progress (Some [Sample.q1; Sample.q2]);
               statusText := "Generating question 3 of 4" |})
  /\ inflight (Sample.worldAfter Sample.twoDrafts) = 1%nat.
Proof.
  pose proof (loading_tracks_request Sample.reader Sample.twoDrafts
                (Sample.worldAfter Sample.twoDrafts) eq_refl) as H.
  split; [reflexivity |].
  destruct (ChatWithFiles (ui (Sample.worldAfter Sample.twoDrafts)))
    as [| overlay zone disabled label footer] eqn:Hview.
  - discriminate Hview.
  - destruct H as [(_ & Hlabel & _) | (Hone & _)]; [| exact Hone].
    subst label. discriminate Hview.
Defined.
